(** * ptytest: the session / broadcast core

    A shallow embedding of [src/ptytest/session.py] (BaseSession,
    TmuxSession, PtySession) and of [src/ptytest/viz/viewer.py]
    (ScreenBroadcaster), with the properties of the polling assertions, of
    cleanup, of the liveness precondition and of the broadcaster's loop.

    Conventions.
    - Time is counted in whole milliseconds ([Z]); Python's float seconds
      [0.1] and [0.5] are [100] and [500].  [time.time()] reads the field
      [now] of the world, [time.sleep(d)] advances it by [d].
    - A Python call that the source treats as able to raise returns a
      [result]; [try: ... except Exception: pass] is [try_pass].
    - External collaborators (pexpect, the tmux command line, ptydriver,
      the pyte screen) are state or oracles carried inside the model. *)

From Stdlib Require Import ZArith NArith Lia Bool String Ascii.
From stdpp Require Import base list strings pretty.

Local Open Scope Z_scope.

(** ** Python values and effects *)

Inductive exn : Type :=
| RuntimeError (msg : string)
| TimeoutError (msg : string)
| ValueError (msg : string)
| Exception (msg : string).

Inductive result (A : Type) : Type :=
| Ok (a : A)
| Raise (e : exn).

Arguments Ok {A} a.
Arguments Raise {A} e.

(** State-and-exception monad: a Python method body run against a store. *)
Definition M (St A : Type) : Type := St -> result A * St.

Definition ret {St A} (a : A) : M St A := fun s => (Ok a, s).

Definition raise {St A} (e : exn) : M St A := fun s => (Raise e, s).

Definition bind {St A B} (c : M St A) (k : A -> M St B) : M St B :=
  fun s => match c s with
           | (Ok a, s') => k a s'
           | (Raise e, s') => (Raise e, s')
           end.

Definition modify {St} (f : St -> St) : M St unit := fun s => (Ok tt, f s).

Definition gets {St A} (f : St -> A) : M St A := fun s => (Ok (f s), s).

(** [try: c  except Exception: pass] *)
Definition try_pass {St} (c : M St unit) : M St unit :=
  fun s => (Ok tt, snd (c s)).

Notation "x <- c ;; k" := (bind c (fun x => k))
  (at level 90, c at level 89, right associativity).
Notation "c ;;; k" := (bind c (fun _ => k))
  (at level 90, right associativity).

(** Python's [text in content] on strings. *)
Fixpoint contains (text content : string) : bool :=
  if String.prefix text content then true
  else match content with
       | EmptyString => false
       | String _ rest => contains text rest
       end.

Definition LF : string := String (ascii_of_nat 10) EmptyString.
Definition CR : string := String (ascii_of_nat 13) EmptyString.

(** ** The clock *)

Record World (Sess : Type) : Type := mkWorld { now : Z; self : Sess }.

Arguments mkWorld {Sess} now self.
Arguments now {Sess} w.
Arguments self {Sess} w.

(** [time.sleep(ms)]; a negative length is a [ValueError]. *)
Definition sleep {Sess} (ms : Z) : M (World Sess) unit :=
  fun w => if ms <? 0
           then (Raise (ValueError "sleep length must be non-negative"), w)
           else (Ok tt, mkWorld (now w + ms) (self w)).

Definition on_self {Sess} (f : Sess -> Sess) : M (World Sess) unit :=
  modify (fun w => mkWorld (now w) (f (self w))).

(** ** BaseSession (session.py, lines 28-150) *)

(** The abstract methods.  [get_content include_history t s] is a call begun
    at time [t]: it returns the text, the session afterwards and the time the
    call took (never negative).  It is declared [-> str] and the source never
    guards a call to it. *)
Class BaseSession (Sess : Type) : Type := {
  timeout : Sess -> Z;
  _is_cleaned_up : Sess -> bool;
  send_keys : string -> Z -> bool -> M (World Sess) unit;
  send_raw : string -> Z -> M (World Sess) unit;
  get_content : bool -> Z -> Sess -> string * Sess * N;
  cleanup : M Sess unit
}.

Section BaseSessionMethods.

Context {Sess : Type} `{BaseSession Sess}.

(** Python's rendering of the [timeout] argument inside the f-string of
    [wait_for_text] ([None], [0.5], [5], ...). *)
Variable str_timeout : option Z -> string.

(** A call [self.get_content(include_history=ih)] made by the running
    thread: the clock moves by the time the call took. *)
Definition call_get_content (ih : bool) (w : World Sess) : string * World Sess :=
  let '(content, s', cost) := get_content ih (now w) (self w) in
  (content, mkWorld (now w + Z.of_N cost) s').

(** [timeout if timeout is not None else self.timeout] *)
Definition effective_timeout (timeout_arg : option Z) (s : Sess) : Z :=
  match timeout_arg with
  | Some t => t
  | None => timeout s
  end.

Definition POLL_SLEEP : Z := 100.

(** The [while time.time() - start < timeout] loop of
    [verify_text_appears].  [fuel] bounds the number of polls; [None] means
    the bound was too small. *)
Fixpoint verify_loop (fuel : nat) (text : string) (ih : bool)
  (start tmo : Z) (w : World Sess) : option (result bool * World Sess) :=
  if now w - start <? tmo then
    match fuel with
    | O => None
    | S fuel' =>
      let (content, w1) := call_get_content ih w in
      if contains text content then Some (Ok true, w1)
      else match sleep POLL_SLEEP w1 with
           | (Ok _, w2) => verify_loop fuel' text ih start tmo w2
           | (Raise e, w2) => Some (Raise e, w2)
           end
    end
  else Some (Ok false, w).

(** Every pass but the last sleeps 100 ms, so this many polls are enough. *)
Definition poll_budget (tmo : Z) : nat := Z.to_nat (tmo / POLL_SLEEP + 1).

Definition verify_text_appears (text : string) (timeout_arg : option Z)
  (include_history : bool) (w : World Sess) : option (result bool * World Sess) :=
  let tmo := effective_timeout timeout_arg (self w) in
  let start := now w in
  verify_loop (poll_budget tmo) text include_history start tmo w.

Definition timeout_message (text : string) (timeout_arg : option Z)
  (content : string) : string :=
  ("Text '" ++ text ++ "' did not appear within " ++ str_timeout timeout_arg
   ++ "s." ++ LF ++ "Current content:" ++ LF ++ content)%string.

Definition wait_for_text (text : string) (timeout_arg : option Z)
  (include_history : bool) (w : World Sess) : option (result unit * World Sess) :=
  match verify_text_appears text timeout_arg include_history w with
  | None => None
  | Some (Raise e, w1) => Some (Raise e, w1)
  | Some (Ok true, w1) => Some (Ok tt, w1)
  | Some (Ok false, w1) =>
    let (content, w2) := call_get_content include_history w1 in
    Some (Raise (TimeoutError (timeout_message text timeout_arg content)), w2)
  end.

(** [__exit__]: cleanup on every exit path, exceptions are not swallowed. *)
Definition __exit__ (s : Sess) : result bool * Sess :=
  (_ <- cleanup ;; ret false) s.

(** [n] calls of [cleanup] in a row, with what each call came back with. *)
Fixpoint cleanup_times (n : nat) (s : Sess) : list (result unit) * Sess :=
  match n with
  | O => ([], s)
  | S n' =>
    let (r, s1) := cleanup s in
    let (rs, s2) := cleanup_times n' s1 in
    (r :: rs, s2)
  end.

(** The polls as a schedule: [poll_world ih k w] is the world in which the
    poll number [k] begins when none of the earlier ones found the text: each
    poll is followed by one sleep of [POLL_SLEEP]. *)
Fixpoint poll_world (ih : bool) (k : nat) (w : World Sess) : World Sess :=
  match k with
  | O => w
  | S k' =>
    let w1 := snd (call_get_content ih w) in
    poll_world ih k' (mkWorld (now w1 + POLL_SLEEP) (self w1))
  end.

Definition poll_content (ih : bool) (k : nat) (w : World Sess) : string :=
  fst (call_get_content ih (poll_world ih k w)).

End BaseSessionMethods.

(** ** pexpect's spawn, as TmuxSession uses it *)

Module Spawn.

Record t : Type := mk { alive : bool; closed : bool; sent : list string }.

(** [process.send(s)]: the bytes handed to the child's terminal, in order. *)
Definition send (s : string) (p : t) : t :=
  mk (alive p) (closed p) (sent p ++ [s]).

Definition terminate (p : t) : t := mk false (closed p) (sent p).

Definition close (p : t) : t := mk false true (sent p).

End Spawn.

(** The external calls that [TmuxSession.cleanup] wraps in
    [try / except Exception]: [tmux kill-session] and, on the pexpect
    process, [isalive()], [terminate(force=True)] and [close()]. *)
Inductive ExtCall : Type :=
| KillSession
| IsAlive
| Terminate
| Close.

(** ** TmuxSession (session.py, lines 153-442) *)

Module TmuxSession.

(** A constructed TmuxSession ([self.process] is set).
    [pane_at include_history t] is what [tmux capture-pane -p] prints at
    time [t]; [faults c] is the exception, if any, that the external call
    [c] raises. *)
Record t : Type := mk {
  _is_cleaned_up : bool;
  timeout : Z;
  session_name : string;
  process : Spawn.t;
  session_exists : bool;
  pane_at : bool -> Z -> string;
  capture_cost : N;
  faults : ExtCall -> option exn
}.

Definition with_process (f : Spawn.t -> Spawn.t) (s : t) : t :=
  mk (_is_cleaned_up s) (timeout s) (session_name s) (f (process s))
     (session_exists s) (pane_at s) (capture_cost s) (faults s).

Definition with_cleaned_up (b : bool) (s : t) : t :=
  mk b (timeout s) (session_name s) (process s)
     (session_exists s) (pane_at s) (capture_cost s) (faults s).

Definition with_session_exists (b : bool) (s : t) : t :=
  mk (_is_cleaned_up s) (timeout s) (session_name s) (process s)
     b (pane_at s) (capture_cost s) (faults s).

(** An external call: raises what the oracle says, else has its effect. *)
Definition ext {A} (c : ExtCall) (value : t -> A) (effect : t -> t) : M t A :=
  fun s => match faults s c with
           | Some e => (Raise e, s)
           | None => (Ok (value s), effect s)
           end.

Definition send_prefix_key (key : string) (delay : Z) : M (World t) unit :=
  on_self (with_process (Spawn.send (String (ascii_of_nat 2) EmptyString))) ;;;
  sleep 50 ;;;
  on_self (with_process (Spawn.send key)) ;;;
  sleep delay.

Definition send_raw (sequence : string) (delay : Z) : M (World t) unit :=
  on_self (with_process (Spawn.send sequence)) ;;;
  sleep delay.

Definition send_keys (keys : string) (delay : Z) (literal : bool)
  : M (World t) unit :=
  on_self (with_process (Spawn.send keys)) ;;;
  (if negb literal then on_self (with_process (Spawn.send CR)) else ret tt) ;;;
  sleep delay.

Definition get_content (include_history : bool) (time : Z) (s : t)
  : string * t * N :=
  (pane_at s include_history time, s, capture_cost s).

Definition _session_exists (s : t) : bool := session_exists s.

Definition cleanup : M t unit :=
  done <- gets _is_cleaned_up ;;
  if done then ret tt
  else
    modify (with_cleaned_up true) ;;;
    try_pass (ext KillSession (fun _ => tt) (with_session_exists false)) ;;;
    try_pass (
      up <- ext IsAlive (fun s => Spawn.alive (process s)) id ;;
      (if up then ext Terminate (fun _ => tt) (with_process Spawn.terminate)
       else ret tt) ;;;
      ext Close (fun _ => tt) (with_process Spawn.close)).

End TmuxSession.

(** ** ptydriver's PtyProcess *)

Module PtyProcess.

Inductive Call : Type :=
| Send (text : string) (delay : Z) (press_enter : bool)
| SendRaw (sequence : string) (delay : Z)
| GetContent (time : Z).

(** Modelled from the spec: ptydriver's [PtyProcess], the process handle and
    terminal buffer that [PtySession] delegates to and that is not among the
    repository's sources.  It has a liveness check, writes, a rendered screen
    read under its lock ([screen_at t] at time [t]) and a cleanup that
    terminates the child and releases the buffer, discarding the errors of
    doing so.  [received] lists the writes and reads it was asked for, with
    their arguments. *)
Record t : Type := mk {
  alive : bool;
  received : list Call;
  screen_at : Z -> string;
  read_cost : N;
  released : bool
}.

Definition is_alive (p : t) : bool := alive p.

Definition send (text : string) (delay : Z) (press_enter : bool) (p : t) : t :=
  mk (alive p) (received p ++ [Send text delay press_enter]) (screen_at p)
     (read_cost p) (released p).

Definition send_raw (sequence : string) (delay : Z) (p : t) : t :=
  mk (alive p) (received p ++ [SendRaw sequence delay]) (screen_at p)
     (read_cost p) (released p).

Definition get_content (time : Z) (p : t) : string * t :=
  (screen_at p time,
   mk (alive p) (received p ++ [GetContent time]) (screen_at p)
      (read_cost p) (released p)).

Definition cleanup (p : t) : t :=
  mk false (received p) (screen_at p) (read_cost p) true.

End PtyProcess.

(** ** PtySession (session.py, lines 445-645) *)

Module PtySession.

(** The broadcaster started by [enable_viz=True], seen from the session:
    [shutdown_fault] is what its [shutdown()] raises, if anything. *)
Record VizServer : Type := mkViz {
  viz_running : bool;
  shutdown_fault : option exn
}.

(** A constructed PtySession: [self._pty_process] is set, so the
    [hasattr] test of [cleanup] and the [not self._pty_process] test of the
    senders do not fire. *)
Record t : Type := mk {
  _is_cleaned_up : bool;
  timeout : Z;
  _viz_server : option VizServer;
  _pty_process : PtyProcess.t
}.

Definition with_pty (f : PtyProcess.t -> PtyProcess.t) (s : t) : t :=
  mk (_is_cleaned_up s) (timeout s) (_viz_server s) (f (_pty_process s)).

Definition with_cleaned_up (b : bool) (s : t) : t :=
  mk b (timeout s) (_viz_server s) (_pty_process s).

Definition viz_shutdown (v : VizServer) : M t unit :=
  fun s =>
    let s' := mk (_is_cleaned_up s) (timeout s)
                 (Some (mkViz false (shutdown_fault v))) (_pty_process s) in
    match shutdown_fault v with
    | Some e => (Raise e, s')
    | None => (Ok tt, s')
    end.

Definition send_raw (sequence : string) (delay : Z) : M (World t) unit :=
  up <- gets (fun w => PtyProcess.is_alive (_pty_process (self w))) ;;
  if negb up then raise (RuntimeError "Process not running")
  else on_self (with_pty (PtyProcess.send_raw sequence delay)).

Definition send_keys (keys : string) (delay : Z) (literal : bool)
  : M (World t) unit :=
  up <- gets (fun w => PtyProcess.is_alive (_pty_process (self w))) ;;
  if negb up then raise (RuntimeError "Process not running")
  else on_self (with_pty (PtyProcess.send keys delay (negb literal))).

Definition get_content (include_history : bool) (time : Z) (s : t)
  : string * t * N :=
  let (content, p) := PtyProcess.get_content time (_pty_process s) in
  (content, with_pty (fun _ => p) s, PtyProcess.read_cost p).

Definition cleanup : M t unit :=
  done <- gets _is_cleaned_up ;;
  if done then ret tt
  else
    modify (with_cleaned_up true) ;;;
    v <- gets _viz_server ;;
    match v with
    | Some viz => try_pass (viz_shutdown viz)
    | None => ret tt
    end ;;;
    modify (with_pty PtyProcess.cleanup).

End PtySession.

#[export] Instance TmuxSession_BaseSession : BaseSession TmuxSession.t := {|
  timeout := TmuxSession.timeout;
  _is_cleaned_up := TmuxSession._is_cleaned_up;
  send_keys := TmuxSession.send_keys;
  send_raw := TmuxSession.send_raw;
  get_content := TmuxSession.get_content;
  cleanup := TmuxSession.cleanup
|}.

#[export] Instance PtySession_BaseSession : BaseSession PtySession.t := {|
  timeout := PtySession.timeout;
  _is_cleaned_up := PtySession._is_cleaned_up;
  send_keys := PtySession.send_keys;
  send_raw := PtySession.send_raw;
  get_content := PtySession.get_content;
  cleanup := PtySession.cleanup
|}.

(** ** ScreenBroadcaster (viz/viewer.py, lines 34-156) *)

Module ScreenBroadcaster.

(** The pyte screen of the session: [screen.display] and [screen.cursor]. *)
Record Screen : Type := mkScreen {
  display : list string;
  cursor_x : Z;
  cursor_y : Z
}.

(** A subscriber is known by its identity; what calling it does is the
    parameter [call] below. *)
Definition Callback : Type := nat.

Inductive Lock : Type := SubscribersLock | ScreenLock.

Inductive Event : Type :=
| Acquire (l : Lock)
| Release (l : Lock)
| Invoke (cb : Callback) (lines : list string) (x y : Z) (outcome : result unit)
| Slept (ms : Z)
| ThreadStarted (tid : nat)
| ThreadExited (tid : nat).

Record t : Type := mk {
  update_interval : Z;
  _subscribers : list Callback;
  _running : bool;
  _thread : option nat;
  _last_content : list string
}.

(** [ScreenBroadcaster(session, update_interval)] *)
Definition __init__ (interval : Z) : t := mk interval [] false None [].

Definition with_subscribers (f : list Callback -> list Callback) (b : t) : t :=
  mk (update_interval b) (f (_subscribers b)) (_running b) (_thread b)
     (_last_content b).

Definition with_running (r : bool) (b : t) : t :=
  mk (update_interval b) (_subscribers b) r (_thread b) (_last_content b).

Definition with_thread (th : option nat) (b : t) : t :=
  mk (update_interval b) (_subscribers b) (_running b) th (_last_content b).

Definition with_last_content (l : list string) (b : t) : t :=
  mk (update_interval b) (_subscribers b) (_running b) (_thread b) l.

(** Python's [list.remove]: the first occurrence only. *)
Fixpoint remove_first (cb : Callback) (l : list Callback) : list Callback :=
  match l with
  | [] => []
  | c :: rest => if Nat.eqb c cb then rest else c :: remove_first cb rest
  end.

Definition is_acquire_subscribers (e : Event) : bool :=
  match e with Acquire SubscribersLock => true | _ => false end.

(** The calls made to subscribers, in order, with their arguments. *)
Fixpoint calls_in (evs : list Event) : list (Callback * (list string * Z * Z)) :=
  match evs with
  | [] => []
  | Invoke cb lines x y _ :: rest => (cb, (lines, x, y)) :: calls_in rest
  | _ :: rest => calls_in rest
  end.

(** A notification pass took place. *)
Definition notified (evs : list Event) : bool :=
  existsb is_acquire_subscribers evs.

(** Replays the events: [true] when some subscriber is invoked while
    [SubscribersLock] is held ([held] is whether it is held at the start). *)
Fixpoint invoked_under_lock (held : bool) (evs : list Event) : bool :=
  match evs with
  | [] => false
  | Acquire SubscribersLock :: rest => invoked_under_lock true rest
  | Release SubscribersLock :: rest => invoked_under_lock false rest
  | Invoke _ _ _ _ _ :: rest => held || invoked_under_lock held rest
  | _ :: rest => invoked_under_lock held rest
  end.

(** [true] when some subscriber is invoked while the lock is free. *)
Fixpoint invoked_outside_lock (held : bool) (evs : list Event) : bool :=
  match evs with
  | [] => false
  | Acquire SubscribersLock :: rest => invoked_outside_lock true rest
  | Release SubscribersLock :: rest => invoked_outside_lock false rest
  | Invoke _ _ _ _ _ :: rest => negb held || invoked_outside_lock held rest
  | _ :: rest => invoked_outside_lock held rest
  end.

Section WithSubscribers.

(** [U] is the state the subscribers act on (the lists the tests append to,
    a viewer's widget); [call cb lines x y] is the call
    [cb(lines, cursor_x, cursor_y)].  Subscribers read the list they are
    handed and leave it as it is, as those of the repository do; the
    broadcaster keeps its own copy ([lines.copy()]) in [_last_content]. *)
Variable U : Type.
Variable call : Callback -> list string -> Z -> Z -> M U unit.

(** The broadcaster object, the threads created so far ([true]: still
    inside [_broadcast_loop]), the subscribers' state and the events so far. *)
Record Sys : Type := mkSys {
  bc : t;
  threads : list bool;
  user : U;
  trace : list Event
}.

Definition on_bc (f : t -> t) : M Sys unit :=
  modify (fun s => mkSys (f (bc s)) (threads s) (user s) (trace s)).

Definition emit (e : Event) : M Sys unit :=
  modify (fun s => mkSys (bc s) (threads s) (user s) (trace s ++ [e])).

(** [with lock: body] *)
Definition with_lock {A} (l : Lock) (body : M Sys A) : M Sys A :=
  fun s => let (r, s') := (emit (Acquire l) ;;; body) s in
           (r, snd (emit (Release l) s')).

Definition subscribe (callback : Callback) : M Sys unit :=
  with_lock SubscribersLock
    (on_bc (with_subscribers (fun l => l ++ [callback]))).

Definition unsubscribe (callback : Callback) : M Sys unit :=
  with_lock SubscribersLock
    (subs <- gets (fun s => _subscribers (bc s)) ;;
     if existsb (Nat.eqb callback) subs
     then on_bc (with_subscribers (remove_first callback))
     else ret tt).

(** [view] is the session's screen as the reads inside the [with] block
    find it: [Raise] when reading [screen.display] or the cursor raises,
    which happens with the lock held; the [with] statement gives the lock
    back before the exception leaves the method. *)
Definition get_screen_state (view : result Screen)
  : M Sys (list string * Z * Z) :=
  with_lock ScreenLock
    match view with
    | Raise e => raise e
    | Ok scr => ret (display scr, cursor_x scr, cursor_y scr)
    end.

Definition start : M Sys unit :=
  running <- gets (fun s => _running (bc s)) ;;
  if running then ret tt
  else
    on_bc (with_running true) ;;;
    tid <- gets (fun s => length (threads s)) ;;
    on_bc (with_thread (Some tid)) ;;;
    modify (fun s => mkSys (bc s) (threads s ++ [true]) (user s) (trace s)) ;;;
    emit (ThreadStarted tid).

(** [shutdown]: the bounded [join] changes nothing in the store. *)
Definition shutdown : M Sys unit :=
  on_bc (with_running false) ;;;
  with_lock SubscribersLock (on_bc (with_subscribers (fun _ => []))).

Definition is_running (s : Sys) : bool := _running (bc s).

Definition invoke (cb : Callback) (lines : list string) (x y : Z)
  : M Sys unit :=
  fun s => let (r, u) := call cb lines x y (user s) in
           (r, mkSys (bc s) (threads s) u (trace s ++ [Invoke cb lines x y r])).

(** [for callback in self._subscribers: try: callback(...) except: pass] *)
Fixpoint notify_all (cbs : list Callback) (lines : list string) (x y : Z)
  : M Sys unit :=
  match cbs with
  | [] => ret tt
  | cb :: rest => try_pass (invoke cb lines x y) ;;; notify_all rest lines x y
  end.

Definition sleep_interval : M Sys unit :=
  ms <- gets (fun s => update_interval (bc s)) ;;
  if ms <? 0 then raise (ValueError "sleep length must be non-negative")
  else emit (Slept ms).

(** The body of the [try] inside [_broadcast_loop]. *)
Definition loop_body (view : result Screen) : M Sys unit :=
  st <- get_screen_state view ;;
  let '(lines, x, y) := st in
  last <- gets (fun s => _last_content (bc s)) ;;
  (if bool_decide (lines <> last)
   then on_bc (with_last_content lines) ;;;
        with_lock SubscribersLock
          (subs <- gets (fun s => _subscribers (bc s)) ;;
           notify_all subs lines x y)
   else ret tt) ;;;
  sleep_interval.

(** What a notification pass over [cbs] amounts to: one [Invoke] per
    subscriber, in order, each run on the state the previous one left. *)
Fixpoint notify_events (cbs : list Callback) (lines : list string) (x y : Z)
  (u : U) : list Event * U :=
  match cbs with
  | [] => ([], u)
  | cb :: rest =>
    let (r, u1) := call cb lines x y u in
    let (evs, u2) := notify_events rest lines x y u1 in
    (Invoke cb lines x y r :: evs, u2)
  end.

Definition sleep_events (b : t) : list Event :=
  if update_interval b <? 0 then [] else [Slept (update_interval b)].

(** The events of one turn of the loop that read the screen [scr]. *)
Definition iteration_events (scr : Screen) (s : Sys) : list Event :=
  [Acquire ScreenLock; Release ScreenLock]
  ++ (if bool_decide (display scr <> _last_content (bc s))
      then Acquire SubscribersLock
           :: fst (notify_events (_subscribers (bc s)) (display scr)
                     (cursor_x scr) (cursor_y scr) (user s))
           ++ [Release SubscribersLock]
      else [])
  ++ sleep_events (bc s).

Inductive Ctl : Type := Continue | Break.

(** One turn of [while self._running: try: ... except Exception: break]. *)
Definition loop_iteration (view : result Screen) (s : Sys) : Ctl * Sys :=
  if _running (bc s)
  then match loop_body view s with
       | (Ok _, s') => (Continue, s')
       | (Raise _, s') => (Break, s')
       end
  else (Break, s).

(** [_broadcast_loop] on its own: one screen view per turn. *)
Fixpoint _broadcast_loop (views : list (result Screen)) (s : Sys) : Ctl * Sys :=
  match views with
  | [] => (Continue, s)
  | v :: rest =>
    match loop_iteration v s with
    | (Continue, s') => _broadcast_loop rest s'
    | (Break, s') => (Break, s')
    end
  end.

(** What happens to a broadcaster: calls of its methods from other threads,
    and turns of the loop of one of its polling threads. *)
Inductive Action : Type :=
| CallStart
| CallShutdown
| CallSubscribe (cb : Callback)
| CallUnsubscribe (cb : Callback)
| Tick (tid : nat) (view : result Screen).

Definition is_shutdown (a : Action) : bool :=
  match a with CallShutdown => true | _ => false end.

Definition tick (tid : nat) (view : result Screen) (s : Sys) : Sys :=
  match threads s !! tid with
  | Some true =>
    match loop_iteration view s with
    | (Continue, s') => s'
    | (Break, s') =>
      mkSys (bc s') (<[tid := false]> (threads s')) (user s')
            (trace s' ++ [ThreadExited tid])
    end
  | _ => s
  end.

Definition step (a : Action) (s : Sys) : Sys :=
  match a with
  | CallStart => snd (start s)
  | CallShutdown => snd (shutdown s)
  | CallSubscribe cb => snd (subscribe cb s)
  | CallUnsubscribe cb => snd (unsubscribe cb s)
  | Tick tid view => tick tid view s
  end.

Definition run (acts : list Action) (s : Sys) : Sys :=
  fold_left (fun s a => step a s) acts s.

(** The events a step added. *)
Definition events_of (before after : Sys) : list Event :=
  drop (length (trace before)) (trace after).

End WithSubscribers.

Arguments mkSys {U} bc threads user trace.
Arguments bc {U} s.
Arguments threads {U} s.
Arguments user {U} s.
Arguments trace {U} s.
Arguments is_running {U} s.
Arguments events_of {U} before after.

(** The subscribers of [test_broadcaster_handles_subscriber_errors]:
    callback 0 raises on every call, the others append the lines they are
    given to a list. *)
Definition bad_then_good : Callback -> list string -> Z -> Z
                           -> M (list (list string)) unit :=
  fun cb lines _ _ =>
    if Nat.eqb cb 0 then raise (RuntimeError "Subscriber error!")
    else modify (fun seen => seen ++ [lines]).

(** A broadcaster with those two subscribers, started, its thread alive. *)
Definition two_subscribers : Sys (list (list string)) :=
  mkSys (mk 100 [0%nat; 1%nat] true (Some 0%nat) []) [true] [] [].

(** A fresh broadcaster. *)
Definition fresh : Sys (list (list string)) :=
  mkSys (__init__ 100) [] [] [].

End ScreenBroadcaster.

(** ** Sessions used as examples *)

Module Demo.

(** A shell behind a PtySession: the screen shows the prompt, and from
    [shown_at] on the typed command and its output; a read takes [cost] ms. *)
Definition shell_screen (shown_at : Z) (time : Z) : string :=
  if time <? shown_at then "$ "%string
  else ("$ echo actual" ++ LF ++ "actual" ++ LF ++ "$ ")%string.

Definition shell (is_up : bool) (shown_at : Z) (cost : N) : PtySession.t :=
  PtySession.mk false 5000 None
    (PtyProcess.mk is_up [] (shell_screen shown_at) cost false).

(** A TmuxSession whose attached client is gone. *)
Definition dead_tmux : TmuxSession.t :=
  TmuxSession.mk false 5000 "ptytest-0a1b2c3d" (Spawn.mk false false [])
    true (fun _ _ => "$ "%string) 20 (fun _ => None).

(** A TmuxSession all of whose guarded external calls raise. *)
Definition failing_tmux : TmuxSession.t :=
  TmuxSession.mk false 5000 "ptytest-0a1b2c3d" (Spawn.mk true false [])
    true (fun _ _ => "$ "%string) 20 (fun _ => Some (Exception "failed")).

(** A PtySession with a broadcaster whose shutdown raises. *)
Definition shell_with_viz : PtySession.t :=
  PtySession.mk false 5000
    (Some (PtySession.mkViz true (Some (RuntimeError "cannot join thread"))))
    (PtyProcess.mk true [] (shell_screen 0) 0 false).

(** Python's [str] of a float number of seconds given in milliseconds:
    [500] is "0.5", [2000] is "2.0", [1250] is "1.25". *)
Definition str_float_seconds (ms : Z) : string :=
  let a := Z.abs ms in
  let r := a mod 1000 in
  let fraction :=
    if negb (r mod 10 =? 0)
    then (pretty (r / 100) ++ pretty (r / 10 mod 10) ++ pretty (r mod 10))%string
    else if negb (r mod 100 =? 0)
         then (pretty (r / 100) ++ pretty (r / 10 mod 10))%string
         else pretty (r / 100) in
  let sign := if ms <? 0 then "-"%string else ""%string in
  (sign ++ pretty (a / 1000) ++ "." ++ fraction)%string.

Definition str_seconds (timeout_arg : option Z) : string :=
  match timeout_arg with
  | None => "None"
  | Some ms => str_float_seconds ms
  end.

End Demo.

(** ** Reading the process's log *)

Module PtyLog.

(** What the process was asked to write, reads left out. *)
Definition is_write (c : PtyProcess.Call) : bool :=
  match c with PtyProcess.GetContent _ => false | _ => true end.

Definition writes (p : PtyProcess.t) : list PtyProcess.Call :=
  filter (fun c => is_write c = true) (PtyProcess.received p).

End PtyLog.

(** ** NeovimSession (neovim.py, lines 28-286): the parts built on PtySession *)

Module NeovimSession.

(** [Keys.ESCAPE] and [Keys.ENTER], with the values that
    [tests/test_session.py] asserts. *)
Definition ESCAPE : string := String (ascii_of_nat 27) EmptyString.
Definition ENTER : string := CR.

(** [tempfile.TemporaryDirectory]: its [cleanup()] removes the directory, or
    raises what [cleanup_fault] says. *)
Record TempDir : Type := mkTemp {
  removed : bool;
  cleanup_fault : option exn
}.

Record t : Type := mk {
  pty : PtySession.t;
  default_timeout : Z;
  _temp_dir : option TempDir
}.

(** A method inherited from PtySession, run on the Neovim session. *)
Definition inherited {A} (c : M (World PtySession.t) A) : M (World t) A :=
  fun w =>
    let (r, w') := c (mkWorld (now w) (pty (self w))) in
    (r, mkWorld (now w')
          (mk (self w') (default_timeout (self w)) (_temp_dir (self w)))).

(** [self.send_raw(sequence)], with the default delay of 0.15 s. *)
Definition send_raw (sequence : string) : M (World t) unit :=
  inherited (PtySession.send_raw sequence 150).

Definition ex (cmd : string) (wait : bool) : M (World t) string :=
  send_raw ESCAPE ;;;
  sleep 50 ;;;
  send_raw (":" ++ cmd)%string ;;;
  sleep 50 ;;;
  send_raw ENTER ;;;
  (if wait then sleep 200 else ret tt) ;;;
  ret ""%string.

Definition lua (code : string) : M (World t) string :=
  ex ("lua " ++ code)%string true.

Definition normal (keys : string) : M (World t) unit :=
  ex ("normal! " ++ keys)%string true ;;; ret tt.

Definition ensure_normal_mode : M (World t) unit :=
  send_raw ESCAPE ;;;
  sleep 50 ;;;
  send_raw ESCAPE ;;;
  sleep 50.

Definition temp_dir_cleanup (d : TempDir) : M (World t) unit :=
  fun w =>
    match cleanup_fault d with
    | Some e => (Raise e, w)
    | None =>
      (Ok tt,
       mkWorld (now w)
         (mk (pty (self w)) (default_timeout (self w))
             (Some (mkTemp true (cleanup_fault d)))))
    end.

Definition cleanup : M (World t) unit :=
  try_pass (
    up <- gets (fun w =>
                  PtyProcess.is_alive (PtySession._pty_process (pty (self w)))) ;;
    if up then
      send_raw ESCAPE ;;;
      sleep 50 ;;;
      send_raw ESCAPE ;;;
      sleep 50 ;;;
      ex "qa!" false ;;;
      sleep 200
    else ret tt) ;;;
  inherited (fun w => let (r, s) := PtySession.cleanup (self w) in
                      (r, mkWorld (now w) s)) ;;;
  d <- gets (fun w => _temp_dir (self w)) ;;
  match d with
  | Some dir => try_pass (temp_dir_cleanup dir)
  | None => ret tt
  end.

End NeovimSession.

(** ** TerminalDisplay.update_screen (viz/viewer.py, lines 159-209) *)

Module TerminalDisplay.

(** A Python [str] is a sequence of Unicode code points and [len] counts
    them: a screen line is the list of its code points. *)
Definition PyStr : Type := list N.

Definition len (line : PyStr) : Z := Z.of_nat (length line).

(** One line handed to rich: [Text.from_ansi(line)], and the column given to
    [stylize("reverse", x, x + 1)] when the cursor is shown on it. *)
Record Row : Type := mkRow { line : PyStr; reverse_at : option Z }.

(** What the widget is given to show: the dimmed waiting text, or the rows,
    joined by newlines (one between two rows, none after the last). *)
Inductive Shown : Type :=
| Waiting
| Rows (rows : list Row).

Record t : Type := mk { _cursor_x : Z; _cursor_y : Z; content : Shown }.

(** [for i, line in enumerate(lines)], from index [i] on. *)
Fixpoint render_rows (i : nat) (lines : list PyStr) (x y : Z) : list Row :=
  match lines with
  | [] => []
  | l :: rest =>
    mkRow l (if (Z.of_nat i =? y) && (0 <=? x) && (x <? len l)
             then Some x else None)
    :: render_rows (S i) rest x y
  end.

Definition update_screen (lines : list PyStr) (cursor_x cursor_y : Z)
  (d : t) : t :=
  mk cursor_x cursor_y
     (match lines with
      | [] => Waiting
      | _ => Rows (render_rows 0 lines cursor_x cursor_y)
      end).



(** The code points of a text of ASCII characters. *)
Definition ascii_line (s : string) : PyStr :=
  map (fun c => N.of_nat (nat_of_ascii c)) (list_ascii_of_string s).

End TerminalDisplay.

(** ** Reading the broadcaster's events *)

Module BroadcastLog.

Import ScreenBroadcaster.

(** The screens, of those read one after the other, that are broadcast:
    those whose lines differ from the lines read just before ([last] at
    first). *)
Fixpoint broadcasts (last : list string) (screens : list Screen)
  : list Screen :=
  match screens with
  | [] => []
  | scr :: rest =>
    if bool_decide (display scr <> last)
    then scr :: broadcasts (display scr) rest
    else broadcasts (display scr) rest
  end.

(** Number of subscriptions of [cb] in the list. *)
Fixpoint subscriptions (cb : Callback) (l : list Callback) : nat :=
  match l with
  | [] => 0
  | c :: rest =>
    if Nat.eqb c cb then S (subscriptions cb rest) else subscriptions cb rest
  end.

(** Replays the events against the two locks, both of which are plain
    [threading.Lock]s: [None] when a held lock is acquired again or a free
    one released, else which of them are held at the end
    (subscribers' lock, screen lock). *)
Fixpoint replay_locks (subs_held screen_held : bool) (evs : list Event)
  : option (bool * bool) :=
  match evs with
  | [] => Some (subs_held, screen_held)
  | Acquire SubscribersLock :: rest =>
    if subs_held then None else replay_locks true screen_held rest
  | Release SubscribersLock :: rest =>
    if subs_held then replay_locks false screen_held rest else None
  | Acquire ScreenLock :: rest =>
    if screen_held then None else replay_locks subs_held true rest
  | Release ScreenLock :: rest =>
    if screen_held then replay_locks subs_held false rest else None
  | _ :: rest => replay_locks subs_held screen_held rest
  end.

(** [cb] is among the subscribers called. *)
Definition invoked (cb : Callback) (evs : list Event) : bool :=
  existsb (fun c => Nat.eqb (fst c) cb) (calls_in evs).

Definition is_subscribe_of (cb : Callback) (a : Action) : bool :=
  match a with
  | CallSubscribe c => Nat.eqb c cb
  | _ => false
  end.

End BroadcastLog.

(** ** The polls of a wait, counted on [get_content] *)

Section Polls.

Context {Sess : Type} `{BaseSession Sess}.

(** Poll number [k] of a wait whose first poll begins at time [t] on the
    session [s], as long as no poll has shown the text: the time at which
    its [get_content] call begins and the session the call is made on.  A
    call that took [cost] ms is followed by [time.sleep(0.1)]. *)
Fixpoint nth_poll (ih : bool) (k : nat) (t : Z) (s : Sess) : Z * Sess :=
  match k with
  | O => (t, s)
  | S k' =>
    let '(_, s', cost) := get_content ih t s in
    nth_poll ih k' (t + Z.of_N cost + 100) s'
  end.

Definition poll_begins (ih : bool) (k : nat) (w : World Sess) : Z :=
  fst (nth_poll ih k (now w) (self w)).

Definition poll_session (ih : bool) (k : nat) (w : World Sess) : Sess :=
  snd (nth_poll ih k (now w) (self w)).

(** What the [get_content] call of poll [k] gives: the content, the session
    afterwards and the time the call took. *)
Definition poll_read (ih : bool) (k : nat) (w : World Sess) : string * Sess * N :=
  get_content ih (poll_begins ih k w) (poll_session ih k w).

Definition poll_returns (ih : bool) (k : nat) (w : World Sess) : string :=
  fst (fst (poll_read ih k w)).

Definition poll_took (ih : bool) (k : nat) (w : World Sess) : Z :=
  Z.of_N (snd (poll_read ih k w)).

(** The world in which the call of poll [k] returns. *)
Definition poll_leaves (ih : bool) (k : nat) (w : World Sess) : World Sess :=
  mkWorld (poll_begins ih k w + poll_took ih k w) (snd (fst (poll_read ih k w))).

End Polls.

(** * Properties *)

(** ** Substring test *)

Lemma prefix_app (t b : string) : String.prefix t (t ++ b)%string = true.
Proof.
  induction t as [|c t IH]; simpl.
  - now destruct b.
  - destruct (ascii_dec c c) as [_|n]; [exact IH | now destruct n].
Qed.

Lemma contains_unfold (text content : string) :
  contains text content =
  if String.prefix text content then true
  else match content with
       | EmptyString => false
       | String _ rest => contains text rest
       end.
Proof. destruct content; reflexivity. Qed.

Lemma prefix_refl (t : string) : String.prefix t t = true.
Proof.
  induction t as [|c t IH]; simpl; [reflexivity|].
  destruct (ascii_dec c c) as [_|n]; [exact IH | now destruct n].
Qed.

Lemma contains_refl (t : string) : contains t t = true.
Proof. rewrite contains_unfold, prefix_refl. reflexivity. Qed.

Lemma contains_prefix (t b : string) : contains t (t ++ b)%string = true.
Proof. rewrite contains_unfold, prefix_app. reflexivity. Qed.

Lemma contains_app_r (a t c : string) :
  contains t c = true -> contains t (a ++ c)%string = true.
Proof.
  intros Hc. induction a as [|x a IH]; [exact Hc|].
  rewrite contains_unfold.
  destruct (String.prefix t (String x a ++ c)%string); [reflexivity|].
  exact IH.
Qed.

Lemma contains_app (a t b : string) :
  contains t (a ++ t ++ b)%string = true.
Proof. apply contains_app_r, contains_prefix. Qed.

Create HintDb substring.
#[export] Hint Resolve contains_refl contains_prefix contains_app_r : substring.

Lemma prefix_split (t c : string) :
  String.prefix t c = true -> exists b, c = (t ++ b)%string.
Proof.
  revert c. induction t as [|x t IH]; intros c Hp.
  - exists c. reflexivity.
  - destruct c as [|y c]; simpl in Hp; [discriminate|].
    destruct (ascii_dec x y) as [->|]; [|discriminate].
    destruct (IH _ Hp) as [b ->]. exists b. reflexivity.
Qed.

Lemma contains_split (t c : string) :
  contains t c = true -> exists a b, c = (a ++ t ++ b)%string.
Proof.
  induction c as [|y c IH]; rewrite contains_unfold;
    destruct (String.prefix t _) eqn:Hp; intros Hc.
  - destruct (prefix_split _ _ Hp) as [b Hb]. exists EmptyString, b. exact Hb.
  - discriminate.
  - destruct (prefix_split _ _ Hp) as [b Hb]. exists EmptyString, b. exact Hb.
  - destruct (IH Hc) as (a & b & ->). exists (String y a), b. reflexivity.
Qed.

(** ** The polling loop *)

Section PollingFacts.

Context {Sess : Type} `{BaseSession Sess}.

Lemma call_get_content_now (ih : bool) (w : World Sess) :
  now w <= now (snd (call_get_content ih w)).
Proof.
  unfold call_get_content.
  destruct (get_content ih (now w) (self w)) as [[c s'] cost]. simpl. lia.
Qed.

Lemma poll_world_now (ih : bool) (k : nat) :
  forall w : World Sess, now w <= now (poll_world ih k w).
Proof.
  induction k as [|k IH]; intros w; simpl; [lia|].
  etransitivity; [|apply IH]. simpl.
  pose proof (call_get_content_now ih w). unfold POLL_SLEEP. lia.
Qed.

Lemma poll_world_succ (ih : bool) (k : nat) :
  forall w : World Sess,
    poll_world ih (S k) w =
    let w1 := snd (call_get_content ih (poll_world ih k w)) in
    mkWorld (now w1 + POLL_SLEEP) (self w1).
Proof.
  induction k as [|k IH]; intros w; [reflexivity|].
  change (poll_world ih (S (S k)) w)
    with (poll_world ih (S k)
            (mkWorld (now (snd (call_get_content ih w)) + POLL_SLEEP)
                     (self (snd (call_get_content ih w))))).
  rewrite IH. reflexivity.
Qed.

Lemma verify_loop_spec (text : string) (ih : bool) (start tmo : Z) :
  forall (fuel : nat) (w : World Sess),
    tmo - (now w - start) <= POLL_SLEEP * Z.of_nat fuel ->
    exists b w',
      verify_loop fuel text ih start tmo w = Some (Ok b, w') /\
      (b = true <->
       exists k, now (poll_world ih k w) - start < tmo /\
                 contains text (poll_content ih k w) = true).
Proof.
  unfold POLL_SLEEP.
  induction fuel as [|fuel IH]; intros w Hfuel.
  - exists false, w. simpl.
    destruct (now w - start <? tmo) eqn:Hlt; [apply Z.ltb_lt in Hlt; lia|].
    split; [reflexivity|]. split; [discriminate|].
    intros (k & Hk & _). apply Z.ltb_ge in Hlt.
    pose proof (poll_world_now ih k w). lia.
  - simpl. destruct (now w - start <? tmo) eqn:Hlt.
    + apply Z.ltb_lt in Hlt.
      pose proof (call_get_content_now ih w) as Hnow.
      destruct (call_get_content ih w) as [content w1] eqn:Hcall.
      simpl in Hnow.
      destruct (contains text content) eqn:Hc.
      * exists true, w1. split; [reflexivity|]. split; [|reflexivity].
        intros _. exists 0%nat. simpl. split; [exact Hlt|].
        unfold poll_content. simpl. rewrite Hcall. exact Hc.
      * destruct (IH (mkWorld (now w1 + 100) (self w1))) as (b & w' & Hrun & Hiff).
        { simpl. lia. }
        exists b, w'. split; [exact Hrun|].
        rewrite Hiff. split.
        -- intros (k & Hk & Hck). exists (S k).
           unfold poll_content in *. simpl. rewrite Hcall. simpl.
           unfold POLL_SLEEP. split; assumption.
        -- intros (k & Hk & Hck). destruct k as [|k].
           ++ unfold poll_content in Hck. simpl in Hck.
              rewrite Hcall in Hck. simpl in Hck. congruence.
           ++ exists k. unfold poll_content in *. simpl in Hk, Hck.
              rewrite Hcall in Hk, Hck. simpl in Hk, Hck.
              unfold POLL_SLEEP in *. split; assumption.
    + exists false, w. split; [reflexivity|]. split; [discriminate|].
      intros (k & Hk & _). apply Z.ltb_ge in Hlt.
      pose proof (poll_world_now ih k w). lia.
Qed.

Lemma poll_budget_enough (tmo : Z) :
  tmo <= POLL_SLEEP * Z.of_nat (poll_budget tmo).
Proof.
  unfold poll_budget, POLL_SLEEP.
  destruct (Z.le_gt_cases tmo 0) as [Hle|Hgt]; [lia|].
  rewrite Z2Nat.id.
  - pose proof (Z.mod_pos_bound tmo 100 ltac:(lia)).
    pose proof (Z.div_mod tmo 100 ltac:(lia)). lia.
  - pose proof (Z.div_pos tmo 100 ltac:(lia) ltac:(lia)). lia.
Qed.

(** [verify_text_appears] always comes back with a boolean. *)
Lemma verify_text_appears_total (text : string) (timeout_arg : option Z)
  (ih : bool) (w : World Sess) :
  exists b w',
    verify_text_appears text timeout_arg ih w = Some (Ok b, w') /\
    (b = true <->
     exists k,
       now (poll_world ih k w) - now w < effective_timeout timeout_arg (self w) /\
       contains text (poll_content ih k w) = true).
Proof.
  unfold verify_text_appears. apply verify_loop_spec.
  pose proof (poll_budget_enough (effective_timeout timeout_arg (self w))). lia.
Qed.

End PollingFacts.

(** ** The run of the polling loop *)

Section PollingRuns.

Context {Sess : Type} `{BaseSession Sess}.

Lemma poll_world_lower (ih : bool) (k : nat) :
  forall w : World Sess,
    now w + POLL_SLEEP * Z.of_nat k <= now (poll_world ih k w).
Proof.
  unfold POLL_SLEEP.
  induction k as [|k IH]; intros w; [simpl; lia|].
  rewrite poll_world_succ. cbv zeta. simpl.
  pose proof (call_get_content_now ih (poll_world ih k w)).
  specialize (IH w). unfold POLL_SLEEP. lia.
Qed.

Lemma poll_world_mono (ih : bool) (w : World Sess) (j k : nat) :
  (j <= k)%nat -> now (poll_world ih j w) <= now (poll_world ih k w).
Proof.
  induction 1 as [|k Hle IH]; [lia|].
  rewrite poll_world_succ. cbv zeta. simpl.
  pose proof (call_get_content_now ih (poll_world ih k w)).
  unfold POLL_SLEEP. lia.
Qed.

(** The loop stops at the first poll that shows the text, or at the first
    that would begin too late. *)
Lemma verify_loop_run (text : string) (ih : bool) (start tmo : Z) :
  forall (fuel : nat) (w : World Sess),
    tmo - (now w - start) <= POLL_SLEEP * Z.of_nat fuel ->
    exists (k : nat) (b : bool) (w' : World Sess),
      verify_loop fuel text ih start tmo w = Some (Ok b, w') /\
      (forall j, (j < k)%nat ->
                 now (poll_world ih j w) - start < tmo /\
                 contains text (poll_content ih j w) = false) /\
      (if b
       then now (poll_world ih k w) - start < tmo /\
            contains text (poll_content ih k w) = true /\
            w' = snd (call_get_content ih (poll_world ih k w))
       else tmo <= now (poll_world ih k w) - start /\
            w' = poll_world ih k w).
Proof.
  unfold POLL_SLEEP.
  induction fuel as [|fuel IH]; intros w Hfuel.
  - exists 0%nat, false, w. simpl.
    destruct (now w - start <? tmo) eqn:Hlt; [apply Z.ltb_lt in Hlt; lia|].
    apply Z.ltb_ge in Hlt.
    split; [reflexivity|]. split; [intros j Hj; lia|]. split; [lia|reflexivity].
  - simpl. destruct (now w - start <? tmo) eqn:Hlt.
    + apply Z.ltb_lt in Hlt.
      pose proof (call_get_content_now ih w) as Hnow.
      destruct (call_get_content ih w) as [content w1] eqn:Hcall.
      simpl in Hnow.
      destruct (contains text content) eqn:Hc.
      * exists 0%nat, true, w1.
        split; [reflexivity|]. split; [intros j Hj; lia|].
        unfold poll_content. simpl. rewrite Hcall. auto.
      * destruct (IH (mkWorld (now w1 + 100) (self w1)))
          as (k & b & w' & Hrun & Hbefore & Hend).
        { simpl. lia. }
        exists (S k), b, w'. split; [exact Hrun|].
        assert (Hshift : forall j,
                   poll_world ih (S j) w
                   = poll_world ih j (mkWorld (now w1 + 100) (self w1))).
        { intros j. simpl. rewrite Hcall. reflexivity. }
        split.
        -- intros [|j] Hj.
           ++ unfold poll_content. simpl. rewrite Hcall. auto.
           ++ unfold poll_content. rewrite Hshift.
              apply Hbefore. lia.
        -- unfold poll_content in *. rewrite Hshift. exact Hend.
    + apply Z.ltb_ge in Hlt. exists 0%nat, false, w.
      split; [reflexivity|]. split; [intros j Hj; lia|].
      split; [simpl; lia|reflexivity].
Qed.

Lemma verify_text_appears_run (text : string) (timeout_arg : option Z)
  (ih : bool) (w : World Sess) :
  exists (k : nat) (b : bool) (w' : World Sess),
    verify_text_appears text timeout_arg ih w = Some (Ok b, w') /\
    (forall j, (j < k)%nat ->
               now (poll_world ih j w) - now w
               < effective_timeout timeout_arg (self w) /\
               contains text (poll_content ih j w) = false) /\
    (if b
     then now (poll_world ih k w) - now w
          < effective_timeout timeout_arg (self w) /\
          contains text (poll_content ih k w) = true /\
          w' = snd (call_get_content ih (poll_world ih k w))
     else effective_timeout timeout_arg (self w)
          <= now (poll_world ih k w) - now w /\
          w' = poll_world ih k w).
Proof.
  unfold verify_text_appears. apply verify_loop_run.
  pose proof (poll_budget_enough (effective_timeout timeout_arg (self w))). lia.
Qed.

End PollingRuns.

(** ** The polls, read off [get_content] *)

Section PollsFacts.

Context {Sess : Type} `{BaseSession Sess}.

Lemma nth_poll_world (ih : bool) (k : nat) :
  forall w : World Sess,
    poll_world ih k w = mkWorld (poll_begins ih k w) (poll_session ih k w).
Proof.
  unfold poll_begins, poll_session.
  induction k as [|k IH]; intros w; [now destruct w|].
  simpl. unfold call_get_content.
  destruct (get_content ih (now w) (self w)) as [[c s'] cost]. simpl.
  rewrite IH. reflexivity.
Qed.

Lemma call_get_content_poll (ih : bool) (k : nat) (w : World Sess) :
  call_get_content ih (poll_world ih k w)
  = (poll_returns ih k w, poll_leaves ih k w).
Proof.
  rewrite nth_poll_world.
  unfold call_get_content, poll_returns, poll_leaves, poll_took, poll_read.
  simpl.
  now destruct (get_content ih (poll_begins ih k w) (poll_session ih k w))
    as [[c s'] cost].
Qed.

Lemma poll_content_returns (ih : bool) (k : nat) (w : World Sess) :
  poll_content ih k w = poll_returns ih k w.
Proof. unfold poll_content. now rewrite call_get_content_poll. Qed.

Lemma poll_begins_succ (ih : bool) (k : nat) (w : World Sess) :
  poll_begins ih (S k) w = poll_begins ih k w + poll_took ih k w + 100.
Proof.
  pose proof (nth_poll_world ih (S k) w) as Hs.
  rewrite poll_world_succ, call_get_content_poll in Hs.
  cbv zeta in Hs. simpl in Hs. unfold POLL_SLEEP in Hs.
  now inversion Hs.
Qed.

(** The run of [verify_text_appears], on the polls. *)
Lemma verify_text_appears_polls (text : string) (timeout_arg : option Z)
  (ih : bool) (w : World Sess) :
  let T := effective_timeout timeout_arg (self w) in
  exists (b : bool) (w' : World Sess),
    verify_text_appears text timeout_arg ih w = Some (Ok b, w') /\
    (b = true <->
     exists k, poll_begins ih k w - now w < T /\
               contains text (poll_returns ih k w) = true) /\
    (exists k,
        (forall j, (j < k)%nat ->
                   poll_begins ih j w - now w < T /\
                   contains text (poll_returns ih j w) = false) /\
        if b
        then poll_begins ih k w - now w < T /\
             contains text (poll_returns ih k w) = true /\
             w' = poll_leaves ih k w
        else T <= poll_begins ih k w - now w /\
             w' = mkWorld (poll_begins ih k w) (poll_session ih k w)).
Proof.
  intros T. subst T.
  destruct (verify_text_appears_total text timeout_arg ih w)
    as (b & w' & Hrun & Hiff).
  destruct (verify_text_appears_run text timeout_arg ih w)
    as (k & b2 & w2 & Hrun2 & Hbefore & Hend).
  rewrite Hrun in Hrun2. inversion Hrun2; subst b2 w2. clear Hrun2.
  exists b, w'. split; [exact Hrun|]. split.
  - rewrite Hiff. split; intros (j & Hj & Hc); exists j.
    + rewrite nth_poll_world in Hj. rewrite poll_content_returns in Hc. auto.
    + rewrite nth_poll_world. rewrite poll_content_returns. auto.
  - exists k. split.
    + intros j Hj. destruct (Hbefore j Hj) as [Ht Hc].
      rewrite nth_poll_world in Ht. rewrite poll_content_returns in Hc. auto.
    + destruct b.
      * destruct Hend as (Ht & Hc & Hw).
        rewrite nth_poll_world in Ht. rewrite poll_content_returns in Hc.
        rewrite call_get_content_poll in Hw. auto.
      * destruct Hend as (Ht & Hw).
        rewrite nth_poll_world in Ht, Hw. auto.
Qed.

End PollsFacts.

(** ** Polling assertions *)

(** C1, as amended.  For every session, text and timeout T > 0,
    [verify_text_appears(text, timeout=T)] comes back with a boolean and does
    not raise.  The boolean is [True] exactly when one of the polls, a
    [get_content] call begun less than T after the start, returned content
    of which [text] is a substring.  The call makes the polls one after the
    other: it stops at the first that shows the text, in the world in which
    that [get_content] call returned, and otherwise at the first moment, a
    poll being due, at which T has elapsed.  After a poll that took [c] ms
    comes one sleep of 100 ms, so the next poll begins 100 + c ms after it
    began: the polls are at least, not at most, 100 ms apart. *)
Theorem C1_verify_text_appears_polls :
  forall (Sess : Type) (B : BaseSession Sess) (text : string) (T : Z)
         (ih : bool) (w : World Sess),
    0 < T ->
    exists (b : bool) (w' : World Sess),
      verify_text_appears text (Some T) ih w = Some (Ok b, w') /\
      (b = true <->
       exists k, poll_begins ih k w - now w < T /\
                 contains text (poll_returns ih k w) = true) /\
      (exists k,
          (forall j, (j < k)%nat ->
                     poll_begins ih j w - now w < T /\
                     contains text (poll_returns ih j w) = false) /\
          if b
          then poll_begins ih k w - now w < T /\
               contains text (poll_returns ih k w) = true /\
               w' = poll_leaves ih k w
          else T <= poll_begins ih k w - now w /\
               w' = mkWorld (poll_begins ih k w) (poll_session ih k w)) /\
      poll_begins ih 0 w = now w /\
      (forall k,
          poll_begins ih (S k) w = poll_begins ih k w + poll_took ih k w + 100 /\
          poll_begins ih k w + 100 <= poll_begins ih (S k) w).
Proof.
  intros Sess B text T ih w _.
  destruct (verify_text_appears_polls text (Some T) ih w)
    as (b & w' & Hrun & Hiff & Hpolls).
  exists b, w'. split; [exact Hrun|]. split; [exact Hiff|].
  split; [exact Hpolls|]. split; [reflexivity|].
  intros k. rewrite poll_begins_succ. unfold poll_took. lia.
Qed.

(** A shell that shows "actual" from 250 ms on and whose reads take 7 ms,
    with a timeout of 1 s. *)
Lemma C1_witness :
  0 < 1000 /\
  exists (b : bool) (w' : World PtySession.t),
    verify_text_appears "actual" (Some 1000) true
      (mkWorld 0 (Demo.shell true 250 7)) = Some (Ok b, w') /\
    (b = true <->
     exists k,
       poll_begins true k (mkWorld 0 (Demo.shell true 250 7))
       - now (mkWorld 0 (Demo.shell true 250 7)) < 1000 /\
       contains "actual"
         (poll_returns true k (mkWorld 0 (Demo.shell true 250 7))) = true) /\
    (exists k,
        (forall j, (j < k)%nat ->
                   poll_begins true j (mkWorld 0 (Demo.shell true 250 7))
                   - now (mkWorld 0 (Demo.shell true 250 7)) < 1000 /\
                   contains "actual"
                     (poll_returns true j (mkWorld 0 (Demo.shell true 250 7)))
                   = false) /\
        if b
        then poll_begins true k (mkWorld 0 (Demo.shell true 250 7))
             - now (mkWorld 0 (Demo.shell true 250 7)) < 1000 /\
             contains "actual"
               (poll_returns true k (mkWorld 0 (Demo.shell true 250 7))) = true /\
             w' = poll_leaves true k (mkWorld 0 (Demo.shell true 250 7))
        else 1000 <= poll_begins true k (mkWorld 0 (Demo.shell true 250 7))
                     - now (mkWorld 0 (Demo.shell true 250 7)) /\
             w' = mkWorld (poll_begins true k (mkWorld 0 (Demo.shell true 250 7)))
                    (poll_session true k (mkWorld 0 (Demo.shell true 250 7)))) /\
    poll_begins true 0 (mkWorld 0 (Demo.shell true 250 7))
    = now (mkWorld 0 (Demo.shell true 250 7)) /\
    (forall k,
        poll_begins true (S k) (mkWorld 0 (Demo.shell true 250 7))
        = poll_begins true k (mkWorld 0 (Demo.shell true 250 7))
          + poll_took true k (mkWorld 0 (Demo.shell true 250 7)) + 100 /\
        poll_begins true k (mkWorld 0 (Demo.shell true 250 7)) + 100
        <= poll_begins true (S k) (mkWorld 0 (Demo.shell true 250 7))).
Proof.
  split; [lia|].
  apply (C1_verify_text_appears_polls PtySession.t _ "actual" 1000 true
           (mkWorld 0 (Demo.shell true 250 7))).
  lia.
Defined.

(** The run of that witness: the reads begin at 0, 107, 214 and 321 ms, and
    the fourth shows the text. *)
Example verify_text_appears_reads :
  verify_text_appears "actual" (Some 1000) true
    (mkWorld 0 (Demo.shell true 250 7))
  = Some (Ok true,
          mkWorld 328
            (PtySession.mk false 5000 None
               (PtyProcess.mk true
                  [PtyProcess.GetContent 0; PtyProcess.GetContent 107;
                   PtyProcess.GetContent 214; PtyProcess.GetContent 321]
                  (Demo.shell_screen 250) 7 false))).
Proof. reflexivity. Qed.

(** C1 as stated fails: a shell whose reads take 50 ms shows "actual" from
    151 ms on, and the timeout is 0.3 s.  The reads begin at 0 and 150 ms,
    which is 150 ms apart and not 100 at most; the next one is due at
    300 ms, when the time is up, and the call returns [False], although a
    [get_content] call begun at any time from 151 ms on, so during the last
    149 ms of the timeout, returns content that has the text. *)
Lemma C1_counterexample :
  verify_text_appears "actual" (Some 300) true
    (mkWorld 0 (Demo.shell true 151 50))
  = Some (Ok false,
          mkWorld 300
            (PtySession.mk false 5000 None
               (PtyProcess.mk true
                  [PtyProcess.GetContent 0; PtyProcess.GetContent 150]
                  (Demo.shell_screen 151) 50 false))) /\
  contains "actual"
    (fst (fst (get_content true 151 (Demo.shell true 151 50)))) = true /\
  contains "actual"
    (fst (fst (get_content true 299 (Demo.shell true 151 50)))) = true /\
  151 - 0 < 300 /\
  100 < 150 - 0.
Proof. repeat split. Qed.


(** Scenario 2 of the specification: the screen shows "actual", the wait
    for "absent" with a timeout of 0.5 s raises, and the message has both. *)
Example wait_for_text_absent :
  match wait_for_text Demo.str_seconds "absent" (Some 500) true
          (mkWorld 0 (Demo.shell true 0 3)) with
  | Some (Raise (TimeoutError msg), w') =>
    now w' = 518 /\
    contains "absent" msg = true /\
    contains "actual" msg = true /\
    contains "within 0.5s." msg = true
  | _ => False
  end.
Proof. vm_compute. repeat split. Qed.

(** C9.  For every session and text, when the timeout in force is zero or
    negative, [verify_text_appears] comes back [False] and the world is the
    one it was called in, whatever the screen shows; the loop does so with a
    budget of zero polls, that is without one [get_content] call. *)
Theorem C9_nonpositive_timeout_never_polls :
  forall (Sess : Type) (B : BaseSession Sess) (text : string)
         (timeout_arg : option Z) (ih : bool) (w : World Sess),
    effective_timeout timeout_arg (self w) <= 0 ->
    verify_text_appears text timeout_arg ih w = Some (Ok false, w) /\
    verify_loop 0 text ih (now w) (effective_timeout timeout_arg (self w)) w
    = Some (Ok false, w).
Proof.
  intros Sess B text timeout_arg ih w Hle.
  unfold verify_text_appears.
  assert (Hcond : (now w - now w <? effective_timeout timeout_arg (self w)) = false)
    by (apply Z.ltb_ge; lia).
  split; [destruct (poll_budget _)|]; simpl; rewrite Hcond; reflexivity.
Qed.

Lemma C9_witness :
  effective_timeout (Some 0) (self (mkWorld 40 (Demo.shell true 0 0))) <= 0 /\
  contains "actual"
    (fst (call_get_content true (mkWorld 40 (Demo.shell true 0 0)))) = true /\
  (verify_text_appears "actual" (Some 0) true (mkWorld 40 (Demo.shell true 0 0))
   = Some (Ok false, mkWorld 40 (Demo.shell true 0 0)) /\
   verify_loop 0 "actual" true (now (mkWorld 40 (Demo.shell true 0 0)))
     (effective_timeout (Some 0) (self (mkWorld 40 (Demo.shell true 0 0))))
     (mkWorld 40 (Demo.shell true 0 0))
   = Some (Ok false, mkWorld 40 (Demo.shell true 0 0))) /\
  PtyProcess.received (PtySession._pty_process (Demo.shell true 0 0)) = [].
Proof.
  split; [simpl; lia|].
  split; [reflexivity|].
  split; [|reflexivity].
  apply (C9_nonpositive_timeout_never_polls PtySession.t _ "actual" (Some 0)
           true (mkWorld 40 (Demo.shell true 0 0))).
  simpl. lia.
Defined.

(** ** Cleanup *)

Lemma tmux_cleanup_ok (s : TmuxSession.t) :
  fst (TmuxSession.cleanup s) = Ok tt /\
  TmuxSession._is_cleaned_up (snd (TmuxSession.cleanup s)) = true.
Proof.
  unfold TmuxSession.cleanup, bind, gets, modify, try_pass, ret, TmuxSession.ext.
  destruct (TmuxSession._is_cleaned_up s) eqn:Hflag; simpl; [auto|].
  repeat case_match; simplify_eq/=; auto.
Qed.

Lemma tmux_cleanup_closed (s : TmuxSession.t) :
  TmuxSession._is_cleaned_up s = true -> TmuxSession.cleanup s = (Ok tt, s).
Proof.
  intros Hflag. unfold TmuxSession.cleanup, bind, gets. rewrite Hflag.
  reflexivity.
Qed.

Lemma pty_cleanup_ok (s : PtySession.t) :
  fst (PtySession.cleanup s) = Ok tt /\
  PtySession._is_cleaned_up (snd (PtySession.cleanup s)) = true.
Proof.
  unfold PtySession.cleanup, bind, gets, modify, try_pass, ret,
    PtySession.viz_shutdown.
  destruct (PtySession._is_cleaned_up s) eqn:Hflag; simpl; [auto|].
  repeat case_match; simplify_eq/=; auto.
Qed.

Lemma pty_cleanup_closed (s : PtySession.t) :
  PtySession._is_cleaned_up s = true -> PtySession.cleanup s = (Ok tt, s).
Proof.
  intros Hflag. unfold PtySession.cleanup, bind, gets. rewrite Hflag.
  reflexivity.
Qed.

Section CleanupTimes.

Context {Sess : Type} `{BaseSession Sess}.

Hypothesis cleanup_ok :
  forall s : Sess,
    fst (cleanup s) = Ok tt /\ _is_cleaned_up (snd (cleanup s)) = true.
Hypothesis cleanup_closed :
  forall s : Sess, _is_cleaned_up s = true -> cleanup s = (Ok tt, s).

Lemma cleanup_times_closed (n : nat) (s : Sess) :
  _is_cleaned_up s = true ->
  cleanup_times n s = (repeat (Ok tt) n, s).
Proof.
  intros Hflag. induction n as [|n IH]; [reflexivity|].
  simpl. rewrite (cleanup_closed s Hflag), IH. reflexivity.
Qed.

Lemma cleanup_times_first (n : nat) (s : Sess) :
  cleanup_times (S n) s = (repeat (Ok tt) (S n), snd (cleanup s)).
Proof.
  destruct (cleanup_ok s) as [Hr Hflag].
  simpl. destruct (cleanup s) as [r s1]. simpl in Hr, Hflag. subst r.
  rewrite (cleanup_times_closed n s1 Hflag). reflexivity.
Qed.

End CleanupTimes.

(** C3.  For every TmuxSession and every PtySession, whatever the guarded
    external calls do: each of any number of [cleanup()] calls in a row
    returns normally, the first one sets the closed flag, and every later one
    finds the flag set and returns at once, leaving the session exactly as
    the first call left it. *)
Theorem C3_cleanup_never_raises_idempotent :
  (forall (s : TmuxSession.t) (n : nat),
      cleanup_times (S n) s = (repeat (Ok tt) (S n), snd (cleanup s)) /\
      _is_cleaned_up (snd (cleanup s)) = true /\
      cleanup (snd (cleanup s)) = (Ok tt, snd (cleanup s))) /\
  (forall (s : PtySession.t) (n : nat),
      cleanup_times (S n) s = (repeat (Ok tt) (S n), snd (cleanup s)) /\
      _is_cleaned_up (snd (cleanup s)) = true /\
      cleanup (snd (cleanup s)) = (Ok tt, snd (cleanup s))).
Proof.
  split; intros s n.
  - split; [|split].
    + apply cleanup_times_first; [apply tmux_cleanup_ok | apply tmux_cleanup_closed].
    + apply (tmux_cleanup_ok s).
    + apply tmux_cleanup_closed, (tmux_cleanup_ok s).
  - split; [|split].
    + apply cleanup_times_first; [apply pty_cleanup_ok | apply pty_cleanup_closed].
    + apply (pty_cleanup_ok s).
    + apply pty_cleanup_closed, (pty_cleanup_ok s).
Qed.

Example cleanup_failing_tmux :
  cleanup_times 3 Demo.failing_tmux
  = ([Ok tt; Ok tt; Ok tt], TmuxSession.with_cleaned_up true Demo.failing_tmux).
Proof. reflexivity. Qed.

Example cleanup_shell_with_viz :
  fst (cleanup_times 2 Demo.shell_with_viz) = [Ok tt; Ok tt] /\
  PtyProcess.alive
    (PtySession._pty_process (snd (cleanup_times 2 Demo.shell_with_viz)))
  = false.
Proof. split; reflexivity. Qed.

(** ** The liveness precondition *)

(** C4, as amended.  For every PtySession whose child process is reported
    dead, [send_keys] and [send_raw] raise [RuntimeError("Process not
    running")] to the caller and leave the session as it was: nothing is
    passed on to the process. *)
Theorem C4_pty_dead_process_not_running :
  forall (s : PtySession.t) (time : Z) (keys sequence : string) (delay : Z)
         (literal : bool),
    PtyProcess.is_alive (PtySession._pty_process s) = false ->
    send_keys keys delay literal (mkWorld time s)
    = (Raise (RuntimeError "Process not running"), mkWorld time s) /\
    send_raw sequence delay (mkWorld time s)
    = (Raise (RuntimeError "Process not running"), mkWorld time s).
Proof.
  intros s time keys sequence delay literal Hdead.
  split; simpl.
  - unfold PtySession.send_keys, bind, gets. simpl. rewrite Hdead. reflexivity.
  - unfold PtySession.send_raw, bind, gets. simpl. rewrite Hdead. reflexivity.
Qed.

Lemma C4_witness :
  PtyProcess.is_alive (PtySession._pty_process (Demo.shell false 0 0)) = false /\
  send_keys "echo hi" 150 false (mkWorld 0 (Demo.shell false 0 0))
  = (Raise (RuntimeError "Process not running"),
     mkWorld 0 (Demo.shell false 0 0)) /\
  send_raw CR 150 (mkWorld 0 (Demo.shell false 0 0))
  = (Raise (RuntimeError "Process not running"),
     mkWorld 0 (Demo.shell false 0 0)).
Proof.
  split; [reflexivity|].
  apply (C4_pty_dead_process_not_running (Demo.shell false 0 0) 0
           "echo hi" CR 150 false).
  reflexivity.
Defined.

(** C4 as stated fails on TmuxSession: its attached process is dead, yet
    [send_keys] and [send_raw] return normally and the keys were handed to
    the process. *)
Lemma C4_counterexample :
  Spawn.alive (TmuxSession.process Demo.dead_tmux) = false /\
  fst (send_keys "ls" 150 false (mkWorld 0 Demo.dead_tmux)) = Ok tt /\
  Spawn.sent (TmuxSession.process
                (self (snd (send_keys "ls" 150 false (mkWorld 0 Demo.dead_tmux)))))
  = ["ls"%string; CR] /\
  fst (send_raw "q" 150 (mkWorld 0 Demo.dead_tmux)) = Ok tt /\
  Spawn.sent (TmuxSession.process
                (self (snd (send_raw "q" 150 (mkWorld 0 Demo.dead_tmux)))))
  = ["q"%string].
Proof. repeat split. Qed.

(** ** The broadcaster's loop *)

Import ScreenBroadcaster.

Section BroadcasterFacts.

Variable U : Type.
Variable call : Callback -> list string -> Z -> Z -> M U unit.

Abbreviation Sys := (Sys U).

Lemma notify_all_run (lines : list string) (x y : Z) :
  forall (cbs : list Callback) (s : Sys),
    notify_all U call cbs lines x y s =
    (Ok tt,
     mkSys (bc s) (threads s)
           (snd (notify_events U call cbs lines x y (user s)))
           (trace s ++ fst (notify_events U call cbs lines x y (user s)))).
Proof.
  induction cbs as [|cb rest IH]; intros s; simpl.
  - unfold ret. rewrite app_nil_r. now destruct s.
  - unfold bind, try_pass, invoke. simpl.
    destruct (call cb lines x y (user s)) as [r u1]. simpl.
    rewrite IH. simpl.
    destruct (notify_events U call rest lines x y u1) as [evs u2]. simpl.
    rewrite <- app_assoc. reflexivity.
Qed.

Lemma notify_events_calls (lines : list string) (x y : Z) :
  forall (cbs : list Callback) (u : U),
    calls_in (fst (notify_events U call cbs lines x y u))
    = map (fun cb => (cb, (lines, x, y))) cbs.
Proof.
  induction cbs as [|cb rest IH]; intros u; simpl; [reflexivity|].
  destruct (call cb lines x y u) as [r u1].
  specialize (IH u1).
  destruct (notify_events U call rest lines x y u1) as [evs u2].
  simpl in *. now rewrite IH.
Qed.

Lemma notify_events_locked (lines : list string) (x y : Z) (tail : list Event) :
  forall (cbs : list Callback) (u : U),
    invoked_outside_lock true
      (fst (notify_events U call cbs lines x y u) ++ tail)
    = invoked_outside_lock true tail /\
    notified (fst (notify_events U call cbs lines x y u)) = false.
Proof.
  induction cbs as [|cb rest IH]; intros u; simpl; [auto|].
  destruct (call cb lines x y u) as [r u1].
  specialize (IH u1).
  destruct (notify_events U call rest lines x y u1) as [evs u2].
  simpl in *. exact IH.
Qed.

Lemma calls_in_app (a b : list Event) :
  calls_in (a ++ b) = calls_in a ++ calls_in b.
Proof.
  induction a as [|e a IH]; [reflexivity|].
  destruct e; simpl; rewrite ?IH; reflexivity.
Qed.

Lemma sleep_events_quiet (b : t) :
  calls_in (sleep_events b) = [] /\
  notified (sleep_events b) = false /\
  forall held, invoked_outside_lock held (sleep_events b) = false.
Proof.
  unfold sleep_events. destruct (update_interval b <? 0); simpl; auto.
Qed.

(** One turn of the loop of a running broadcaster that could read the
    screen, spelled out. *)
Lemma loop_iteration_ok (scr : Screen) (s : Sys) :
  _running (bc s) = true ->
  loop_iteration U call (Ok scr) s =
  (if update_interval (bc s) <? 0 then Break else Continue,
   mkSys
     (if bool_decide (display scr <> _last_content (bc s))
      then with_last_content (display scr) (bc s) else bc s)
     (threads s)
     (if bool_decide (display scr <> _last_content (bc s))
      then snd (notify_events U call (_subscribers (bc s)) (display scr)
                  (cursor_x scr) (cursor_y scr) (user s))
      else user s)
     (trace s ++ iteration_events U call scr s)).
Proof.
  intros Hrun. unfold loop_iteration. rewrite Hrun.
  unfold iteration_events, sleep_events, loop_body, get_screen_state,
    sleep_interval, with_lock.
  unfold on_bc, emit. unfold bind, gets, ret, modify, raise.
  simpl.
  destruct (bool_decide (display scr <> _last_content (bc s))); simpl.
  - rewrite notify_all_run. simpl.
    destruct (update_interval (bc s) <? 0); simpl;
      rewrite <- ?app_assoc; simpl; rewrite <- ?app_assoc; reflexivity.
  - destruct (update_interval (bc s) <? 0); simpl;
      rewrite <- ?app_assoc; simpl; try rewrite app_nil_r;
      destruct s as [b th u tr]; destruct b; reflexivity.
Qed.

Lemma events_of_iteration (scr : Screen) (s : Sys) :
  _running (bc s) = true ->
  events_of s (snd (loop_iteration U call (Ok scr) s))
  = iteration_events U call scr s.
Proof.
  intros Hrun. rewrite (loop_iteration_ok scr s Hrun). simpl.
  unfold events_of. simpl. apply drop_app_length.
Qed.

Lemma loop_iteration_frame (view : result Screen) (s : Sys) :
  threads (snd (loop_iteration U call view s)) = threads s /\
  _running (bc (snd (loop_iteration U call view s))) = _running (bc s).
Proof.
  destruct (_running (bc s)) eqn:Hrun.
  - destruct view as [scr|e].
    + rewrite (loop_iteration_ok scr s Hrun). simpl.
      destruct (bool_decide _); simpl; auto.
    + unfold loop_iteration. rewrite Hrun. simpl. auto.
  - unfold loop_iteration. rewrite Hrun. simpl. auto.
Qed.

End BroadcasterFacts.

(** C5, as amended.  In every turn of the polling loop of a running
    broadcaster that read the screen, the subscribers are notified exactly
    when the freshly read list of lines differs, as a value, from the lines
    last broadcast; the cursor plays no part.  When they are notified each
    gets the lines and cursor just read and the last-broadcast lines become
    the new ones; otherwise nobody is called and they stay as they were. *)
Theorem C5_notified_iff_lines_differ :
  forall (U : Type) (call : Callback -> list string -> Z -> Z -> M U unit)
         (s : Sys U) (scr : Screen),
    _running (bc s) = true ->
    let s' := snd (loop_iteration U call (Ok scr) s) in
    (notified (events_of s s') = true <->
     display scr <> _last_content (bc s)) /\
    (if bool_decide (display scr <> _last_content (bc s))
     then calls_in (events_of s s')
          = map (fun cb => (cb, (display scr, cursor_x scr, cursor_y scr)))
                (_subscribers (bc s)) /\
          _last_content (bc s') = display scr
     else calls_in (events_of s s') = [] /\
          _last_content (bc s') = _last_content (bc s)).
Proof.
  intros U call s scr Hrun s'. subst s'.
  rewrite (events_of_iteration U call scr s Hrun).
  rewrite (loop_iteration_ok U call scr s Hrun). simpl.
  unfold iteration_events.
  destruct (sleep_events_quiet (bc s)) as (Hcalls & Hnot & _).
  destruct (bool_decide (display scr <> _last_content (bc s))) eqn:Hdec.
  - apply bool_decide_eq_true in Hdec. split; [split; [auto|reflexivity]|].
    split; [|reflexivity].
    simpl. rewrite !calls_in_app, Hcalls, notify_events_calls. simpl.
    now rewrite !app_nil_r.
  - apply bool_decide_eq_false in Hdec. split.
    + simpl. rewrite Hnot. split; [discriminate|]. intros Hne. now destruct Hdec.
    + simpl. rewrite Hcalls. auto.
Qed.

Lemma C5_witness :
  _running (bc two_subscribers) = true /\
  let s' := snd (loop_iteration _ bad_then_good
                   (Ok (mkScreen ["$ "%string] 2 0)) two_subscribers) in
  (notified (events_of two_subscribers s') = true <->
   display (mkScreen ["$ "%string] 2 0) <> _last_content (bc two_subscribers)) /\
  (if bool_decide (display (mkScreen ["$ "%string] 2 0)
                   <> _last_content (bc two_subscribers))
   then calls_in (events_of two_subscribers s')
        = map (fun cb => (cb, (display (mkScreen ["$ "%string] 2 0),
                               cursor_x (mkScreen ["$ "%string] 2 0),
                               cursor_y (mkScreen ["$ "%string] 2 0))))
              (_subscribers (bc two_subscribers)) /\
        _last_content (bc s') = display (mkScreen ["$ "%string] 2 0)
   else calls_in (events_of two_subscribers s') = [] /\
        _last_content (bc s') = _last_content (bc two_subscribers)).
Proof.
  split; [reflexivity|].
  apply (C5_notified_iff_lines_differ _ bad_then_good two_subscribers
           (mkScreen ["$ "%string] 2 0)).
  reflexivity.
Defined.

(** C5 as stated fails: after the snapshot (["$ "], 2, 0) was broadcast, the
    snapshot (["$ "], 5, 0) differs from it in the cursor column, and the
    turn that reads it notifies nobody. *)
Lemma C5_counterexample :
  let first := mkScreen ["$ "%string] 2 0 in
  let second := mkScreen ["$ "%string] 5 0 in
  let s1 := snd (loop_iteration _ bad_then_good (Ok first) two_subscribers) in
  let s2 := snd (loop_iteration _ bad_then_good (Ok second) s1) in
  calls_in (events_of two_subscribers s1)
  = [(0%nat, (["$ "%string], 2, 0)); (1%nat, (["$ "%string], 2, 0))] /\
  (display second, cursor_x second, cursor_y second)
  <> (display first, cursor_x first, cursor_y first) /\
  _running (bc s1) = true /\
  notified (events_of s1 s2) = false /\
  calls_in (events_of s1 s2) = [].
Proof.
  cbv zeta. split; [reflexivity|]. split; [discriminate|].
  repeat split.
Qed.

(** C6.  In every notification pass, whatever the subscribers do when
    called, raising included: every subscriber of the list is invoked, in
    order, each with the same lines and cursor, and the broadcaster is still
    running afterwards.  Whether the loop goes on is decided by the sleep
    alone, never by a subscriber: with a poll interval that [time.sleep]
    accepts (not negative) the loop goes on to its next turn with the
    remaining screen views, and its thread stays alive. *)
Theorem C6_subscriber_errors_isolated :
  forall (U : Type) (call : Callback -> list string -> Z -> Z -> M U unit)
         (s : Sys U) (scr : Screen),
    _running (bc s) = true ->
    display scr <> _last_content (bc s) ->
    let r := loop_iteration U call (Ok scr) s in
    calls_in (events_of s (snd r))
    = map (fun cb => (cb, (display scr, cursor_x scr, cursor_y scr)))
          (_subscribers (bc s)) /\
    is_running (snd r) = true /\
    fst r = (if update_interval (bc s) <? 0 then Break else Continue) /\
    (0 <= update_interval (bc s) ->
     fst r = Continue /\
     (forall views,
         _broadcast_loop U call (Ok scr :: views) s
         = _broadcast_loop U call views (snd r)) /\
     (forall tid, threads s !! tid = Some true ->
                  threads (tick U call tid (Ok scr) s) !! tid = Some true)).
Proof.
  intros U call s scr Hrun Hne r. subst r.
  pose proof (C := events_of_iteration U call scr s Hrun).
  split; [|split; [|split]].
  - rewrite C. unfold iteration_events.
    rewrite (bool_decide_eq_true_2 _ Hne).
    destruct (sleep_events_quiet (bc s)) as (Hcalls & _ & _).
    simpl. rewrite !calls_in_app, Hcalls, notify_events_calls. simpl.
    now rewrite !app_nil_r.
  - unfold is_running.
    rewrite (proj2 (loop_iteration_frame U call (Ok scr) s)). exact Hrun.
  - rewrite (loop_iteration_ok U call scr s Hrun). reflexivity.
  - intros Hint.
    assert (Hsleep : (update_interval (bc s) <? 0) = false)
      by (apply Z.ltb_ge; lia).
    split; [|split].
    + rewrite (loop_iteration_ok U call scr s Hrun). simpl. now rewrite Hsleep.
    + intros views. simpl.
      rewrite (loop_iteration_ok U call scr s Hrun). now rewrite Hsleep.
    + intros tid Halive. unfold tick. rewrite Halive.
      rewrite (loop_iteration_ok U call scr s Hrun). rewrite Hsleep. simpl.
      exact Halive.
Qed.

Lemma C6_witness :
  _running (bc two_subscribers) = true /\
  display (mkScreen ["$ ls"%string] 4 0) <> _last_content (bc two_subscribers) /\
  bad_then_good 0%nat ["$ ls"%string] 4 0 []
  = (Raise (RuntimeError "Subscriber error!"), []) /\
  user (snd (loop_iteration _ bad_then_good (Ok (mkScreen ["$ ls"%string] 4 0))
               two_subscribers)) = [["$ ls"%string]] /\
  let r := loop_iteration _ bad_then_good (Ok (mkScreen ["$ ls"%string] 4 0))
             two_subscribers in
  calls_in (events_of two_subscribers (snd r))
  = map (fun cb => (cb, (display (mkScreen ["$ ls"%string] 4 0),
                         cursor_x (mkScreen ["$ ls"%string] 4 0),
                         cursor_y (mkScreen ["$ ls"%string] 4 0))))
        (_subscribers (bc two_subscribers)) /\
  is_running (snd r) = true /\
  fst r = (if update_interval (bc two_subscribers) <? 0
           then Break else Continue) /\
  (0 <= update_interval (bc two_subscribers) ->
   fst r = Continue /\
   (forall views,
       _broadcast_loop _ bad_then_good
         (Ok (mkScreen ["$ ls"%string] 4 0) :: views) two_subscribers
       = _broadcast_loop _ bad_then_good views (snd r)) /\
   (forall tid, threads two_subscribers !! tid = Some true ->
                threads (tick _ bad_then_good tid
                           (Ok (mkScreen ["$ ls"%string] 4 0)) two_subscribers)
                !! tid = Some true)).
Proof.
  split; [reflexivity|].
  split; [apply (bool_decide_unpack _); vm_compute; exact I|].
  split; [reflexivity|]. split; [reflexivity|].
  apply (C6_subscriber_errors_isolated _ bad_then_good two_subscribers
           (mkScreen ["$ ls"%string] 4 0)).
  - reflexivity.
  - apply (bool_decide_unpack _). vm_compute. exact I.
Defined.

(** C7, as amended.  In every notification pass the broadcaster acquires
    the subscriber lock, invokes every subscriber while holding it and
    releases it only after the last of them has returned or raised: the
    events of the pass are the screen read, the acquisition, one invocation
    per subscriber in order, the release and the sleep, and no subscriber is
    invoked while the lock is free. *)
Theorem C7_callbacks_run_under_lock :
  forall (U : Type) (call : Callback -> list string -> Z -> Z -> M U unit)
         (s : Sys U) (scr : Screen),
    _running (bc s) = true ->
    display scr <> _last_content (bc s) ->
    let evs := events_of s (snd (loop_iteration U call (Ok scr) s)) in
    let invocations :=
      fst (notify_events U call (_subscribers (bc s)) (display scr)
             (cursor_x scr) (cursor_y scr) (user s)) in
    evs = [Acquire ScreenLock; Release ScreenLock; Acquire SubscribersLock]
          ++ invocations ++ [Release SubscribersLock] ++ sleep_events (bc s) /\
    calls_in invocations
    = map (fun cb => (cb, (display scr, cursor_x scr, cursor_y scr)))
          (_subscribers (bc s)) /\
    invoked_outside_lock false evs = false /\
    invoked_under_lock false evs = negb (bool_decide (_subscribers (bc s) = [])).
Proof.
  intros U call s scr Hrun Hne evs invocations. subst evs invocations.
  rewrite (events_of_iteration U call scr s Hrun). unfold iteration_events.
  rewrite (bool_decide_eq_true_2 _ Hne).
  split; [|split; [apply notify_events_calls|]].
  - simpl. rewrite <- app_assoc. reflexivity.
  - destruct (sleep_events_quiet (bc s)) as (_ & _ & Hquiet).
    split.
    + simpl. rewrite <- app_assoc.
      rewrite (proj1 (notify_events_locked U call _ _ _ _ _ _)).
      simpl. apply Hquiet.
    + simpl. generalize (user s).
      destruct (_subscribers (bc s)) as [|cb rest]; intros u; simpl.
      * unfold sleep_events. now destruct (update_interval (bc s) <? 0).
      * destruct (call cb (display scr) (cursor_x scr) (cursor_y scr) u) as [r u1].
        destruct (notify_events U call rest _ _ _ u1) as [evs u2].
        reflexivity.
Qed.

Lemma C7_witness :
  _running (bc two_subscribers) = true /\
  display (mkScreen ["$ "%string] 2 0) <> _last_content (bc two_subscribers) /\
  let evs := events_of two_subscribers
               (snd (loop_iteration _ bad_then_good
                       (Ok (mkScreen ["$ "%string] 2 0)) two_subscribers)) in
  let invocations :=
    fst (notify_events _ bad_then_good (_subscribers (bc two_subscribers))
           (display (mkScreen ["$ "%string] 2 0))
           (cursor_x (mkScreen ["$ "%string] 2 0))
           (cursor_y (mkScreen ["$ "%string] 2 0)) (user two_subscribers)) in
  evs = [Acquire ScreenLock; Release ScreenLock; Acquire SubscribersLock]
        ++ invocations ++ [Release SubscribersLock]
        ++ sleep_events (bc two_subscribers) /\
  calls_in invocations
  = map (fun cb => (cb, (display (mkScreen ["$ "%string] 2 0),
                         cursor_x (mkScreen ["$ "%string] 2 0),
                         cursor_y (mkScreen ["$ "%string] 2 0))))
        (_subscribers (bc two_subscribers)) /\
  invoked_outside_lock false evs = false /\
  invoked_under_lock false evs
  = negb (bool_decide (_subscribers (bc two_subscribers) = [])).
Proof.
  split; [reflexivity|].
  split; [apply (bool_decide_unpack _); vm_compute; exact I|].
  apply (C7_callbacks_run_under_lock _ bad_then_good two_subscribers
           (mkScreen ["$ "%string] 2 0)).
  - reflexivity.
  - apply (bool_decide_unpack _). vm_compute. exact I.
Defined.

(** C7 as stated fails: in this pass the lock is acquired, both subscribers
    are invoked, and only then is the lock released; a subscriber runs while
    the lock is held. *)
Lemma C7_counterexample :
  let evs := events_of two_subscribers
               (snd (loop_iteration _ bad_then_good
                       (Ok (mkScreen ["$ "%string] 2 0)) two_subscribers)) in
  evs = [Acquire ScreenLock; Release ScreenLock;
         Acquire SubscribersLock;
         Invoke 0%nat ["$ "%string] 2 0 (Raise (RuntimeError "Subscriber error!"));
         Invoke 1%nat ["$ "%string] 2 0 (Ok tt);
         Release SubscribersLock;
         Slept 100] /\
  invoked_under_lock false evs = true.
Proof. cbv zeta. split; reflexivity. Qed.

(** ** The broadcaster's lifecycle *)

Section Lifecycle.

Variable U : Type.
Variable call : Callback -> list string -> Z -> Z -> M U unit.

(** Runs a call of the interface on a symbolic store. *)
Ltac run_call :=
  unfold start, shutdown, subscribe, unsubscribe, with_lock, on_bc, emit;
  unfold bind, gets, modify, ret; simpl;
  repeat match goal with
         | |- context [if ?c then _ else _] => destruct c eqn:?; simpl
         end.

(** A turn of the loop leaves the threads and the running flag alone. *)
Ltac run_tick tid view s :=
  let Ht := fresh "Hthreads" in
  let Hr := fresh "Hrunning" in
  unfold tick;
  destruct (threads s !! tid) as [[|]|] eqn:?; try done;
  pose proof (loop_iteration_frame U call view s) as [Ht Hr];
  destruct (loop_iteration U call view s) as [[|] ?]; simpl in *.

Lemma step_running (a : Action) (s : Sys U) :
  is_running (step U call a s) =
  match a with
  | CallStart => true
  | CallShutdown => false
  | _ => is_running s
  end.
Proof.
  destruct a as [| |cb|cb|tid view]; unfold is_running; simpl.
  1-4: run_call; congruence.
  run_tick tid view s; exact Hrunning.
Qed.

Lemma step_threads_length (a : Action) (s : Sys U) :
  length (threads (step U call a s)) =
  match a with
  | CallStart => if is_running s then length (threads s)
                 else S (length (threads s))
  | _ => length (threads s)
  end.
Proof.
  destruct a as [| |cb|cb|tid view]; unfold is_running; simpl.
  1-4: run_call; rewrite ?length_app; simpl; lia.
  run_tick tid view s; rewrite ?length_insert; now rewrite Hthreads.
Qed.

Lemma step_dead_thread (tid : nat) (a : Action) (s : Sys U) :
  threads s !! tid = Some false ->
  threads (step U call a s) !! tid = Some false.
Proof.
  intros Hdead.
  destruct a as [| |cb|cb|tid' view]; simpl.
  1-4: run_call; try apply lookup_app_l_Some; exact Hdead.
  run_tick tid' view s; rewrite Hthreads; [exact Hdead|].
  rewrite list_lookup_insert_ne; [exact Hdead|].
  intros ->. congruence.
Qed.

Lemma run_dead_thread (tid : nat) (acts : list Action) :
  forall s : Sys U,
    threads s !! tid = Some false ->
    threads (run U call acts s) !! tid = Some false.
Proof.
  induction acts as [|a acts IH]; intros s Hdead; [exact Hdead|].
  apply IH, step_dead_thread, Hdead.
Qed.

Lemma run_keeps_running (acts : list Action) :
  forall s : Sys U,
    existsb is_shutdown acts = false ->
    is_running s = true ->
    is_running (run U call acts s) = true.
Proof.
  induction acts as [|a acts IH]; intros s Hno Hrun; [exact Hrun|].
  simpl in Hno. apply orb_false_iff in Hno as [Ha Hacts].
  apply IH; [exact Hacts|].
  rewrite step_running. destruct a; try exact Hrun; [reflexivity|discriminate].
Qed.

Lemma run_app (a b : list Action) (s : Sys U) :
  run U call (a ++ b) s = run U call b (run U call a s).
Proof. unfold run. apply fold_left_app. Qed.

End Lifecycle.

(** C8, as amended.  The broadcaster can be started again: [shutdown()]
    always leaves it not running, and [start()] always leaves it running,
    creating one new polling thread when it was not running, shut down or
    never started, and none when it was; [subscribe] and [unsubscribe] change
    neither the running flag nor the threads. *)
Theorem C8_start_restarts_after_shutdown :
  forall (U : Type) (call : Callback -> list string -> Z -> Z -> M U unit)
         (s : Sys U) (cb : Callback),
    is_running (step U call CallShutdown s) = false /\
    length (threads (step U call CallShutdown s)) = length (threads s) /\
    is_running (step U call CallStart s) = true /\
    length (threads (step U call CallStart s))
    = (if is_running s then length (threads s) else S (length (threads s))) /\
    is_running (step U call CallStart (step U call CallShutdown s)) = true /\
    threads (step U call CallStart (step U call CallShutdown s))
    = threads s ++ [true] /\
    is_running (step U call (CallSubscribe cb) s) = is_running s /\
    threads (step U call (CallSubscribe cb) s) = threads s /\
    is_running (step U call (CallUnsubscribe cb) s) = is_running s /\
    threads (step U call (CallUnsubscribe cb) s) = threads s.
Proof.
  intros U call s cb.
  rewrite !step_running, !step_threads_length.
  repeat split.
  unfold step, unsubscribe, with_lock, bind, gets. simpl.
  destruct (existsb _ _); reflexivity.
Qed.

(** C8 as stated fails: a fresh broadcaster is started and shut down, and
    its polling thread sees the flag and leaves the loop; a further
    [start()] sets the broadcaster running again and creates a second polling
    thread, which polls. *)
Lemma C8_counterexample :
  let screen := Ok (mkScreen ["$ "%string] 2 0) in
  let down :=
    run _ bad_then_good [CallStart; CallShutdown; Tick 0%nat screen] fresh in
  let again := run _ bad_then_good [CallStart] down in
  let polled := run _ bad_then_good [Tick 1%nat screen] again in
  is_running down = false /\
  threads down = [false] /\
  is_running again = true /\
  threads again = [false; true] /\
  _thread (bc again) = Some 1%nat /\
  is_running polled = true /\
  threads polled = [false; true] /\
  _last_content (bc polled) = ["$ "%string].
Proof. cbv zeta. repeat split. Qed.

(** C10.  When the screen read raises in a turn of the polling loop of a
    running broadcaster, the loop ends there, whatever views would have
    followed, having taken and given back the screen lock and changed
    nothing else, and its thread stays out of it whatever happens next.
    [is_running] is still [True] afterwards and stays [True] through any
    calls and turns that include no [shutdown()]; a [shutdown()] makes it
    [False]. *)
Theorem C10_running_flag_outlives_loop :
  forall (U : Type) (call : Callback -> list string -> Z -> Z -> M U unit)
         (s : Sys U) (tid : nat) (e : exn),
    threads s !! tid = Some true ->
    is_running s = true ->
    let s1 := tick U call tid (Raise e) s in
    (forall views,
        _broadcast_loop U call (Raise e :: views) s
        = (Break, mkSys (bc s) (threads s) (user s)
                    (trace s ++ [Acquire ScreenLock; Release ScreenLock]))) /\
    threads s1 !! tid = Some false /\
    is_running s1 = true /\
    (forall acts, threads (run U call acts s1) !! tid = Some false) /\
    (forall acts, existsb is_shutdown acts = false ->
                  is_running (run U call acts s1) = true) /\
    (forall acts, is_running (run U call (acts ++ [CallShutdown]) s1) = false).
Proof.
  intros U call s tid e Halive Hrun s1.
  assert (Hs1 : s1 = mkSys (bc s) (<[tid := false]> (threads s)) (user s)
                        (trace s ++ [Acquire ScreenLock; Release ScreenLock;
                                     ThreadExited tid])).
  { subst s1. unfold tick. rewrite Halive. unfold loop_iteration.
    unfold is_running in Hrun. rewrite Hrun. simpl.
    rewrite <- !app_assoc. reflexivity. }
  assert (Hdead : threads s1 !! tid = Some false).
  { rewrite Hs1. simpl. apply list_lookup_insert_eq.
    apply lookup_lt_Some in Halive. exact Halive. }
  assert (Hrun1 : is_running s1 = true) by (rewrite Hs1; exact Hrun).
  split; [|split; [exact Hdead|split; [exact Hrun1|split; [|split]]]].
  - intros views. simpl. unfold loop_iteration.
    unfold is_running in Hrun. rewrite Hrun. simpl.
    rewrite <- !app_assoc. reflexivity.
  - intros acts. apply run_dead_thread, Hdead.
  - intros acts Hno. apply run_keeps_running; assumption.
  - intros acts. rewrite run_app.
    change (run U call [CallShutdown] (run U call acts s1))
      with (step U call CallShutdown (run U call acts s1)).
    apply step_running.
Qed.

Lemma C10_witness :
  threads two_subscribers !! 0%nat = Some true /\
  is_running two_subscribers = true /\
  let s1 := tick _ bad_then_good 0%nat (Raise (Exception "session closed"))
              two_subscribers in
  (forall views,
      _broadcast_loop _ bad_then_good
        (Raise (Exception "session closed") :: views) two_subscribers
      = (Break, mkSys (bc two_subscribers) (threads two_subscribers)
                  (user two_subscribers)
                  (trace two_subscribers
                   ++ [Acquire ScreenLock; Release ScreenLock]))) /\
  threads s1 !! 0%nat = Some false /\
  is_running s1 = true /\
  (forall acts, threads (run _ bad_then_good acts s1) !! 0%nat = Some false) /\
  (forall acts, existsb is_shutdown acts = false ->
                is_running (run _ bad_then_good acts s1) = true) /\
  (forall acts,
      is_running (run _ bad_then_good (acts ++ [CallShutdown]) s1) = false).
Proof.
  split; [reflexivity|]. split; [reflexivity|].
  apply (C10_running_flag_outlives_loop _ bad_then_good two_subscribers 0%nat
           (Exception "session closed")); reflexivity.
Defined.

(** * Further properties *)

(** X1.  [verify_text_appears] makes its polls one after the other and stops
    at the first that shows the text, returning [True] with the world as
    that read left it; otherwise it returns [False] after [k] polls that all
    lacked the text, and then the whole timeout has elapsed.  Either way the
    [k] polls made before the last step began less than T after the start,
    100 ms or more apart, so there are at most T/100 rounded up of them. *)
Theorem X1_verify_text_appears_run :
  forall (Sess : Type) (B : BaseSession Sess) (text : string)
         (timeout_arg : option Z) (ih : bool) (w : World Sess),
    let T := effective_timeout timeout_arg (self w) in
    exists (k : nat) (b : bool) (w' : World Sess),
      verify_text_appears text timeout_arg ih w = Some (Ok b, w') /\
      (forall j, (j < k)%nat ->
                 now (poll_world ih j w) - now w < T /\
                 contains text (poll_content ih j w) = false) /\
      (if b
       then now (poll_world ih k w) - now w < T /\
            contains text (poll_content ih k w) = true /\
            w' = snd (call_get_content ih (poll_world ih k w))
       else T <= now w' - now w /\ w' = poll_world ih k w) /\
      POLL_SLEEP * Z.of_nat k < Z.max T 0 + POLL_SLEEP.
Proof.
  intros Sess B text timeout_arg ih w T. subst T.
  destruct (verify_text_appears_run text timeout_arg ih w)
    as (k & b & w' & Hrun & Hbefore & Hend).
  exists k, b, w'. split; [exact Hrun|]. split; [exact Hbefore|]. split.
  - destruct b; [exact Hend|]. destruct Hend as [Hlate ->]. auto.
  - unfold POLL_SLEEP. destruct k as [|k]; [lia|].
    destruct (Hbefore k ltac:(lia)) as [Hk _].
    pose proof (poll_world_lower ih k w). unfold POLL_SLEEP in *. lia.
Qed.

(** X2.  A longer timeout never turns a success into a failure: when
    [verify_text_appears] returns [True] with timeout T, it returns [True]
    with every timeout T' >= T from the same world, after the same polls. *)
Theorem X2_longer_timeout_keeps_success :
  forall (Sess : Type) (B : BaseSession Sess) (text : string) (T T' : Z)
         (ih : bool) (w w1 : World Sess),
    T <= T' ->
    verify_text_appears text (Some T) ih w = Some (Ok true, w1) ->
    verify_text_appears text (Some T') ih w = Some (Ok true, w1).
Proof.
  intros Sess B text T T' ih w w1 Hle Hrun.
  destruct (verify_text_appears_run text (Some T) ih w)
    as (k & b & w2 & Hrun2 & Hbefore & Hend).
  rewrite Hrun in Hrun2. injection Hrun2 as <- <-.
  destruct Hend as (Hk & Hfound & ->).
  destruct (verify_text_appears_run text (Some T') ih w)
    as (k' & b' & w3 & Hrun3 & Hbefore' & Hend').
  rewrite Hrun3. simpl in *.
  destruct b'.
  - destruct Hend' as (Hk' & Hfound' & ->).
    destruct (Nat.lt_trichotomy k k') as [Hlt|[->|Hgt]]; [|reflexivity|].
    + destruct (Hbefore' k Hlt) as [_ Hno]. congruence.
    + destruct (Hbefore k' Hgt) as [_ Hno]. congruence.
  - destruct Hend' as (Hlate & ->).
    destruct (Nat.le_gt_cases k' k) as [Hkk|Hkk].
    + pose proof (poll_world_mono ih w k' k Hkk). lia.
    + destruct (Hbefore' k Hkk) as [_ Hno]. congruence.
Qed.

Lemma X2_witness :
  500 <= 1000 /\
  verify_text_appears "actual" (Some 500) true (mkWorld 0 (Demo.shell true 250 7))
  = Some (Ok true,
          snd (call_get_content true
                 (poll_world true 3 (mkWorld 0 (Demo.shell true 250 7))))) /\
  verify_text_appears "actual" (Some 1000) true (mkWorld 0 (Demo.shell true 250 7))
  = Some (Ok true,
          snd (call_get_content true
                 (poll_world true 3 (mkWorld 0 (Demo.shell true 250 7))))).
Proof.
  split; [lia|]. split; [reflexivity|].
  apply (X2_longer_timeout_keeps_success PtySession.t _ "actual" 500 1000 true
           (mkWorld 0 (Demo.shell true 250 7))).
  - lia.
  - reflexivity.
Defined.

(** X3.  When the text is already in the content at the first read and the
    timeout in force is positive, [verify_text_appears] returns [True] after
    that one read, without sleeping. *)
Theorem X3_text_present_at_first_poll :
  forall (Sess : Type) (B : BaseSession Sess) (text : string)
         (timeout_arg : option Z) (ih : bool) (w : World Sess),
    0 < effective_timeout timeout_arg (self w) ->
    contains text (fst (call_get_content ih w)) = true ->
    verify_text_appears text timeout_arg ih w
    = Some (Ok true, snd (call_get_content ih w)).
Proof.
  intros Sess B text timeout_arg ih w Hpos Hfound.
  unfold verify_text_appears, poll_budget.
  set (tmo := effective_timeout timeout_arg (self w)) in *.
  assert (Hdiv : 0 <= tmo / POLL_SLEEP)
    by (apply Z.div_pos; unfold POLL_SLEEP; lia).
  destruct (Z.to_nat (tmo / POLL_SLEEP + 1)) as [|fuel] eqn:Hfuel; [lia|].
  simpl.
  assert (Hcond : (now w - now w <? tmo) = true) by (apply Z.ltb_lt; lia).
  rewrite Hcond.
  destruct (call_get_content ih w) as [content w1]. simpl in *.
  now rewrite Hfound.
Qed.

Lemma X3_witness :
  0 < effective_timeout None (self (mkWorld 0 (Demo.shell true 0 7))) /\
  contains "actual"
    (fst (call_get_content true (mkWorld 0 (Demo.shell true 0 7)))) = true /\
  verify_text_appears "actual" None true (mkWorld 0 (Demo.shell true 0 7))
  = Some (Ok true, snd (call_get_content true (mkWorld 0 (Demo.shell true 0 7)))) /\
  now (snd (call_get_content true (mkWorld 0 (Demo.shell true 0 7)))) = 7.
Proof.
  split; [simpl; lia|]. split; [reflexivity|]. split; [|reflexivity].
  apply (X3_text_present_at_first_poll PtySession.t _ "actual" None true
           (mkWorld 0 (Demo.shell true 0 7))).
  - simpl. lia.
  - reflexivity.
Defined.

(** X4.  The empty text is in every content (Python's ["" in s]): with a
    positive timeout [verify_text_appears("")] returns [True] after one
    read, and [wait_for_text("")] returns normally. *)
Theorem X4_empty_text_is_found :
  forall (Sess : Type) (B : BaseSession Sess) (str_timeout : option Z -> string)
         (timeout_arg : option Z) (ih : bool) (w : World Sess),
    0 < effective_timeout timeout_arg (self w) ->
    verify_text_appears "" timeout_arg ih w
    = Some (Ok true, snd (call_get_content ih w)) /\
    wait_for_text str_timeout "" timeout_arg ih w
    = Some (Ok tt, snd (call_get_content ih w)).
Proof.
  intros Sess B str_timeout timeout_arg ih w Hpos.
  assert (Hrun : verify_text_appears "" timeout_arg ih w
                 = Some (Ok true, snd (call_get_content ih w))).
  { unfold verify_text_appears, poll_budget.
    set (tmo := effective_timeout timeout_arg (self w)) in *.
    assert (Hdiv : 0 <= tmo / POLL_SLEEP)
      by (apply Z.div_pos; unfold POLL_SLEEP; lia).
    destruct (Z.to_nat (tmo / POLL_SLEEP + 1)) as [|fuel] eqn:Hfuel; [lia|].
    simpl.
    assert (Hcond : (now w - now w <? tmo) = true) by (apply Z.ltb_lt; lia).
    rewrite Hcond.
    destruct (call_get_content ih w) as [content w1]. simpl.
    rewrite contains_unfold. destruct content; reflexivity. }
  split; [exact Hrun|]. unfold wait_for_text. now rewrite Hrun.
Qed.

Lemma X4_witness :
  0 < effective_timeout (Some 1) (self (mkWorld 0 Demo.dead_tmux)) /\
  verify_text_appears "" (Some 1) false (mkWorld 0 Demo.dead_tmux)
  = Some (Ok true, snd (call_get_content false (mkWorld 0 Demo.dead_tmux))) /\
  wait_for_text Demo.str_seconds "" (Some 1) false (mkWorld 0 Demo.dead_tmux)
  = Some (Ok tt, snd (call_get_content false (mkWorld 0 Demo.dead_tmux))).
Proof.
  split; [simpl; lia|].
  apply (X4_empty_text_is_found TmuxSession.t _ Demo.str_seconds (Some 1) false
           (mkWorld 0 Demo.dead_tmux)).
  simpl. lia.
Defined.

(** ** What polling leaves alone *)

Section PollingFrame.

Context {Sess : Type} `{BaseSession Sess}.

(** [R] relates a session to what a read may turn it into. *)
Variable R : Sess -> Sess -> Prop.
Hypothesis R_refl : forall s, R s s.
Hypothesis R_trans : forall s1 s2 s3, R s1 s2 -> R s2 s3 -> R s1 s3.
Hypothesis R_get_content :
  forall ih time s, R s (snd (fst (get_content ih time s))).

Lemma call_get_content_frame (ih : bool) (w : World Sess) :
  R (self w) (self (snd (call_get_content ih w))).
Proof.
  unfold call_get_content.
  pose proof (R_get_content ih (now w) (self w)) as Hr.
  destruct (get_content ih (now w) (self w)) as [[c s'] cost]. exact Hr.
Qed.

Lemma poll_world_frame (ih : bool) (k : nat) (w : World Sess) :
  R (self w) (self (poll_world ih k w)).
Proof.
  induction k as [|k IH]; [apply R_refl|].
  rewrite poll_world_succ. cbv zeta. simpl.
  eapply R_trans; [exact IH|]. apply call_get_content_frame.
Qed.

Lemma polling_frame (str_timeout : option Z -> string) (text : string)
  (timeout_arg : option Z) (ih : bool) (w : World Sess) :
  exists (b : bool) (w1 : World Sess) (r : result unit) (w2 : World Sess),
    verify_text_appears text timeout_arg ih w = Some (Ok b, w1) /\
    R (self w) (self w1) /\
    wait_for_text str_timeout text timeout_arg ih w = Some (r, w2) /\
    R (self w) (self w2).
Proof.
  destruct (verify_text_appears_run text timeout_arg ih w)
    as (k & b & w1 & Hrun & _ & Hend).
  assert (Hw1 : R (self w) (self w1)).
  { destruct b.
    - destruct Hend as (_ & _ & ->).
      eapply R_trans; [apply (poll_world_frame ih k)|].
      apply call_get_content_frame.
    - destruct Hend as (_ & ->). apply poll_world_frame. }
  unfold wait_for_text. rewrite Hrun. destruct b.
  - exists true, w1, (Ok tt), w1. auto.
  - pose proof (call_get_content_frame ih w1) as Hw2.
    destruct (call_get_content ih w1) as [content w2]. simpl in Hw2.
    eexists false, w1, _, w2. repeat split; eauto.
Qed.

End PollingFrame.

(** X5.  Polling only reads.  [verify_text_appears] and [wait_for_text]
    leave a TmuxSession exactly as it was; of a PtySession they change
    nothing but the list of reads asked of the process: its flags, its
    broadcaster, the liveness and screen of the process and the writes it
    received are the same afterwards. *)
Theorem X5_polling_only_reads :
  (forall (str_timeout : option Z -> string) (text : string)
          (timeout_arg : option Z) (ih : bool) (w : World TmuxSession.t),
      exists (b : bool) (w1 : World TmuxSession.t) (r : result unit)
             (w2 : World TmuxSession.t),
        verify_text_appears text timeout_arg ih w = Some (Ok b, w1) /\
        self w1 = self w /\
        wait_for_text str_timeout text timeout_arg ih w = Some (r, w2) /\
        self w2 = self w) /\
  (forall (str_timeout : option Z -> string) (text : string)
          (timeout_arg : option Z) (ih : bool) (w : World PtySession.t),
      exists (b : bool) (w1 : World PtySession.t) (r : result unit)
             (w2 : World PtySession.t),
        verify_text_appears text timeout_arg ih w = Some (Ok b, w1) /\
        wait_for_text str_timeout text timeout_arg ih w = Some (r, w2) /\
        forall w', w' = w1 \/ w' = w2 ->
          PtySession._is_cleaned_up (self w')
          = PtySession._is_cleaned_up (self w) /\
          PtySession._viz_server (self w') = PtySession._viz_server (self w) /\
          PtyProcess.alive (PtySession._pty_process (self w'))
          = PtyProcess.alive (PtySession._pty_process (self w)) /\
          PtyProcess.screen_at (PtySession._pty_process (self w'))
          = PtyProcess.screen_at (PtySession._pty_process (self w)) /\
          PtyLog.writes (PtySession._pty_process (self w'))
          = PtyLog.writes (PtySession._pty_process (self w))).
Proof.
  split; intros str_timeout text timeout_arg ih w.
  - destruct (polling_frame (fun s s' : TmuxSession.t => s' = s))
      with (str_timeout := str_timeout) (text := text)
           (timeout_arg := timeout_arg) (ih := ih) (w := w)
      as (b & w1 & r & w2 & H1 & H2 & H3 & H4).
    + reflexivity.
    + intros; congruence.
    + reflexivity.
    + exists b, w1, r, w2. auto.
  - set (R := fun s s' : PtySession.t =>
                PtySession._is_cleaned_up s' = PtySession._is_cleaned_up s /\
                PtySession._viz_server s' = PtySession._viz_server s /\
                PtyProcess.alive (PtySession._pty_process s')
                = PtyProcess.alive (PtySession._pty_process s) /\
                PtyProcess.screen_at (PtySession._pty_process s')
                = PtyProcess.screen_at (PtySession._pty_process s) /\
                PtyLog.writes (PtySession._pty_process s')
                = PtyLog.writes (PtySession._pty_process s)).
    destruct (polling_frame R) with (str_timeout := str_timeout)
      (text := text) (timeout_arg := timeout_arg) (ih := ih) (w := w)
      as (b & w1 & r & w2 & H1 & H2 & H3 & H4).
    + intros s. unfold R. auto.
    + unfold R. intros s1 s2 s3 (A1 & A2 & A3 & A4 & A5) (B1 & B2 & B3 & B4 & B5).
      repeat split; congruence.
    + intros ih' time s. unfold R. simpl.
      unfold PtyLog.writes. simpl.
      rewrite filter_app. simpl. rewrite app_nil_r. auto.
    + exists b, w1, r, w2. split; [exact H1|]. split; [exact H3|].
      intros w' [-> | ->]; assumption.
Qed.

(** ** Sending keys to a TmuxSession *)

(** X6.  In a TmuxSession, [send_keys(keys)] is [send_keys(keys,
    literal=True)] with no delay followed by [send_raw("\r")], and
    [send_prefix_key(key)] is [send_raw] of Ctrl-b with a delay of 50 ms
    followed by [send_raw(key)]: same outcome, same bytes sent, same clock. *)
Theorem X6_tmux_sends_compose :
  forall (keys key : string) (delay : Z) (w : World TmuxSession.t),
    TmuxSession.send_keys keys delay false w
    = (TmuxSession.send_keys keys 0 true ;;; TmuxSession.send_raw CR delay) w /\
    TmuxSession.send_prefix_key key delay w
    = (TmuxSession.send_raw (String (ascii_of_nat 2) EmptyString) 50 ;;;
       TmuxSession.send_raw key delay) w.
Proof.
  intros keys key delay w.
  unfold TmuxSession.send_keys, TmuxSession.send_prefix_key,
    TmuxSession.send_raw, on_self, sleep.
  unfold bind, modify, ret. simpl. rewrite Z.add_0_r.
  destruct (delay <? 0); split; reflexivity.
Qed.

(** X7.  A negative delay makes [TmuxSession.send_keys] and [send_raw] raise
    [ValueError] (from [time.sleep]), but only after the keys, and Enter
    unless [literal], have been handed to the process. *)
Theorem X7_tmux_negative_delay_raises_after_sending :
  forall (keys : string) (delay : Z) (literal : bool) (w : World TmuxSession.t),
    delay < 0 ->
    TmuxSession.send_keys keys delay literal w
    = (Raise (ValueError "sleep length must be non-negative"),
       mkWorld (now w)
         (TmuxSession.with_process
            (fun p => Spawn.mk (Spawn.alive p) (Spawn.closed p)
                        (Spawn.sent p ++ keys :: (if literal then [] else [CR])))
            (self w))) /\
    TmuxSession.send_raw keys delay w
    = (Raise (ValueError "sleep length must be non-negative"),
       mkWorld (now w)
         (TmuxSession.with_process
            (fun p => Spawn.mk (Spawn.alive p) (Spawn.closed p)
                        (Spawn.sent p ++ [keys]))
            (self w))).
Proof.
  intros keys delay literal w Hneg.
  apply Z.ltb_lt in Hneg.
  unfold TmuxSession.send_keys, TmuxSession.send_raw, on_self, sleep.
  unfold bind, modify, ret. simpl. rewrite Hneg.
  destruct literal; simpl; split; try reflexivity.
  unfold TmuxSession.with_process, Spawn.send. simpl.
  rewrite <- app_assoc. reflexivity.
Qed.

Lemma X7_witness :
  -1 < 0 /\
  TmuxSession.send_keys "ls" (-1) false (mkWorld 0 Demo.dead_tmux)
  = (Raise (ValueError "sleep length must be non-negative"),
     mkWorld (now (mkWorld 0 Demo.dead_tmux))
       (TmuxSession.with_process
          (fun p => Spawn.mk (Spawn.alive p) (Spawn.closed p)
                      (Spawn.sent p ++ "ls"%string :: (if false then [] else [CR])))
          (self (mkWorld 0 Demo.dead_tmux)))) /\
  TmuxSession.send_raw "ls" (-1) (mkWorld 0 Demo.dead_tmux)
  = (Raise (ValueError "sleep length must be non-negative"),
     mkWorld (now (mkWorld 0 Demo.dead_tmux))
       (TmuxSession.with_process
          (fun p => Spawn.mk (Spawn.alive p) (Spawn.closed p)
                      (Spawn.sent p ++ ["ls"%string]))
          (self (mkWorld 0 Demo.dead_tmux)))).
Proof.
  split; [lia|].
  apply (X7_tmux_negative_delay_raises_after_sending "ls" (-1) false
           (mkWorld 0 Demo.dead_tmux)).
  lia.
Defined.

(** ** Leaving a [with] block, and what cleanup closes *)

(** X8.  [__exit__] of a TmuxSession or PtySession runs [cleanup], leaves
    the closed flag set and returns [False]: the exception that ended the
    [with] block, if any, is never swallowed, and none is raised. *)
Theorem X8_exit_cleans_up_and_returns_false :
  (forall s : TmuxSession.t,
      __exit__ s = (Ok false, snd (cleanup s)) /\
      _is_cleaned_up (snd (__exit__ s)) = true) /\
  (forall s : PtySession.t,
      __exit__ s = (Ok false, snd (cleanup s)) /\
      _is_cleaned_up (snd (__exit__ s)) = true).
Proof.
  split; intros s.
  - destruct (tmux_cleanup_ok s) as [Hr Hflag].
    assert (He : __exit__ s = (Ok false, snd (cleanup s))).
    { unfold __exit__, bind, ret. simpl in *.
      destruct (TmuxSession.cleanup s) as [r s1]. simpl in *. now subst r. }
    split; [exact He|]. rewrite He. exact Hflag.
  - destruct (pty_cleanup_ok s) as [Hr Hflag].
    assert (He : __exit__ s = (Ok false, snd (cleanup s))).
    { unfold __exit__, bind, ret. simpl in *.
      destruct (PtySession.cleanup s) as [r s1]. simpl in *. now subst r. }
    split; [exact He|]. rewrite He. exact Hflag.
Qed.



(** ** NeovimSession on top of PtySession *)

(** X10.  [NeovimSession.ex(cmd)] on a live Neovim writes exactly Escape,
    the command after a colon, and Enter, in this order, returns the empty
    string and has slept 100 ms, or 300 ms with [wait]; on a dead one it
    raises [RuntimeError("Process not running")] at once: nothing is written
    and no time passes. *)
Theorem X10_neovim_ex :
  forall (cmd : string) (wait : bool) (w : World NeovimSession.t),
    let p := PtySession._pty_process (NeovimSession.pty (self w)) in
    let r := NeovimSession.ex cmd wait w in
    let p' := PtySession._pty_process (NeovimSession.pty (self (snd r))) in
    if PtyProcess.is_alive p
    then fst r = Ok ""%string /\
         PtyProcess.received p'
         = PtyProcess.received p
           ++ [PtyProcess.SendRaw NeovimSession.ESCAPE 150;
               PtyProcess.SendRaw (":" ++ cmd)%string 150;
               PtyProcess.SendRaw NeovimSession.ENTER 150] /\
         PtyProcess.is_alive p' = true /\
         now (snd r) = now w + (if wait then 300 else 100)
    else r = (Raise (RuntimeError "Process not running"), w).
Proof.
  intros cmd wait [t [[fl tm viz [al rc scr cost rel]] dt td]]. cbv zeta.
  destruct al; [|reflexivity].
  destruct wait; lazy -[Z.add app]; rewrite <- !app_assoc;
    repeat split; lia.
Qed.

(** X11.  [NeovimSession.cleanup] never raises.  On a session not yet
    cleaned up it asks a live Neovim to quit (Escape, Escape, then the Ex
    command [qa!]) and writes nothing to a dead one; afterwards the process
    is dead and the closed flag set, and a second call comes back at once:
    it writes nothing, sleeps not at all and leaves everything as it was. *)
Theorem X11_neovim_cleanup :
  forall w : World NeovimSession.t,
    PtySession._is_cleaned_up (NeovimSession.pty (self w)) = false ->
    let p := PtySession._pty_process (NeovimSession.pty (self w)) in
    let w1 := snd (NeovimSession.cleanup w) in
    let p1 := PtySession._pty_process (NeovimSession.pty (self w1)) in
    fst (NeovimSession.cleanup w) = Ok tt /\
    PtyProcess.received p1
    = PtyProcess.received p
      ++ (if PtyProcess.is_alive p
          then [PtyProcess.SendRaw NeovimSession.ESCAPE 150;
                PtyProcess.SendRaw NeovimSession.ESCAPE 150;
                PtyProcess.SendRaw NeovimSession.ESCAPE 150;
                PtyProcess.SendRaw ":qa!" 150;
                PtyProcess.SendRaw NeovimSession.ENTER 150]
          else []) /\
    PtyProcess.is_alive p1 = false /\
    PtySession._is_cleaned_up (NeovimSession.pty (self w1)) = true /\
    NeovimSession.cleanup w1 = (Ok tt, w1).
Proof.
  intros [t [[fl tm viz [al rc scr cost rel]] dt td]] Hflag.
  cbn in Hflag. subst fl.
  destruct al, viz as [[vr [ve|]]|], td as [[rm [te|]]|];
    lazy -[Z.add app]; rewrite <- ?app_assoc, ?app_nil_r;
    repeat split; reflexivity.
Qed.

Lemma X11_witness :
  let w := mkWorld 0 (NeovimSession.mk (Demo.shell true 0 0) 5000
                        (Some (NeovimSession.mkTemp false None))) in
  PtySession._is_cleaned_up (NeovimSession.pty (self w)) = false /\
  let p := PtySession._pty_process (NeovimSession.pty (self w)) in
  let w1 := snd (NeovimSession.cleanup w) in
  let p1 := PtySession._pty_process (NeovimSession.pty (self w1)) in
  fst (NeovimSession.cleanup w) = Ok tt /\
  PtyProcess.received p1
  = PtyProcess.received p
    ++ (if PtyProcess.is_alive p
        then [PtyProcess.SendRaw NeovimSession.ESCAPE 150;
              PtyProcess.SendRaw NeovimSession.ESCAPE 150;
              PtyProcess.SendRaw NeovimSession.ESCAPE 150;
              PtyProcess.SendRaw ":qa!" 150;
              PtyProcess.SendRaw NeovimSession.ENTER 150]
        else []) /\
  PtyProcess.is_alive p1 = false /\
  PtySession._is_cleaned_up (NeovimSession.pty (self w1)) = true /\
  NeovimSession.cleanup w1 = (Ok tt, w1).
Proof.
  cbv zeta. split; [reflexivity|].
  apply (X11_neovim_cleanup
           (mkWorld 0 (NeovimSession.mk (Demo.shell true 0 0) 5000
                         (Some (NeovimSession.mkTemp false None))))).
  reflexivity.
Defined.

(** ** What the viewer's widget shows *)




(** A cursor on the last character of its line is shown, one just past the
    end is not. *)
Example update_screen_cursor_past_end :
  TerminalDisplay.content
    (TerminalDisplay.update_screen
       [TerminalDisplay.ascii_line "$ ls"; TerminalDisplay.ascii_line "a  b"]
       4 1 (TerminalDisplay.mk 0 0 TerminalDisplay.Waiting))
  = TerminalDisplay.Rows
      [TerminalDisplay.mkRow (TerminalDisplay.ascii_line "$ ls") None;
       TerminalDisplay.mkRow (TerminalDisplay.ascii_line "a  b") None] /\
  TerminalDisplay.content
    (TerminalDisplay.update_screen
       [TerminalDisplay.ascii_line "$ ls"; TerminalDisplay.ascii_line "a  b"]
       3 1 (TerminalDisplay.mk 0 0 TerminalDisplay.Waiting))
  = TerminalDisplay.Rows
      [TerminalDisplay.mkRow (TerminalDisplay.ascii_line "$ ls") None;
       TerminalDisplay.mkRow (TerminalDisplay.ascii_line "a  b") (Some 3)].
Proof. split; reflexivity. Qed.

(** A line that begins with the box-drawing character U+2502, followed by
    "ab", has three characters: the cursor is shown in column 2 and not in
    column 3, whatever the number of bytes of an encoding of the line. *)
Example update_screen_counts_characters :
  TerminalDisplay.len [9474; 97; 98]%N = 3 /\
  TerminalDisplay.content
    (TerminalDisplay.update_screen [[9474; 97; 98]%N] 3 0
       (TerminalDisplay.mk 0 0 TerminalDisplay.Waiting))
  = TerminalDisplay.Rows [TerminalDisplay.mkRow [9474; 97; 98]%N None] /\
  TerminalDisplay.content
    (TerminalDisplay.update_screen [[9474; 97; 98]%N] 2 0
       (TerminalDisplay.mk 0 0 TerminalDisplay.Waiting))
  = TerminalDisplay.Rows [TerminalDisplay.mkRow [9474; 97; 98]%N (Some 2)].
Proof. repeat split. Qed.

(** ** Subscriptions *)

Import BroadcastLog.

Lemma subscriptions_snoc (cb c : Callback) (l : list Callback) :
  subscriptions c (l ++ [cb])
  = if Nat.eqb cb c then S (subscriptions c l) else subscriptions c l.
Proof.
  induction l as [|x l IH]; simpl.
  - destruct (Nat.eqb cb c); reflexivity.
  - rewrite IH. destruct (Nat.eqb x c), (Nat.eqb cb c); reflexivity.
Qed.

Lemma subscriptions_remove_first (cb c : Callback) (l : list Callback) :
  subscriptions c (remove_first cb l)
  = if Nat.eqb cb c then Nat.pred (subscriptions c l) else subscriptions c l.
Proof.
  induction l as [|x l IH]; simpl.
  - destruct (Nat.eqb cb c); reflexivity.
  - destruct (Nat.eqb_spec x cb) as [->|Hx].
    + destruct (Nat.eqb cb c); reflexivity.
    + simpl. rewrite IH.
      destruct (Nat.eqb_spec x c) as [->|Hc], (Nat.eqb_spec cb c) as [->|Hb];
        try reflexivity; try congruence.
Qed.

Lemma subscribed_iff_subscriptions (cb : Callback) (l : list Callback) :
  existsb (Nat.eqb cb) l = negb (Nat.eqb (subscriptions cb l) 0).
Proof.
  induction l as [|x l IH]; simpl; [reflexivity|].
  rewrite (Nat.eqb_sym cb x). destruct (Nat.eqb x cb); simpl; [reflexivity|].
  exact IH.
Qed.

Lemma remove_first_absent (cb : Callback) (l : list Callback) :
  existsb (Nat.eqb cb) l = false -> remove_first cb l = l.
Proof.
  induction l as [|x l IH]; simpl; [reflexivity|].
  rewrite (Nat.eqb_sym cb x). destruct (Nat.eqb x cb); simpl; [discriminate|].
  intros Hl. now rewrite IH.
Qed.

Lemma remove_first_snoc_absent (cb : Callback) (l : list Callback) :
  existsb (Nat.eqb cb) l = false -> remove_first cb (l ++ [cb]) = l.
Proof.
  induction l as [|x l IH]; simpl.
  - now rewrite Nat.eqb_refl.
  - rewrite (Nat.eqb_sym cb x). destruct (Nat.eqb x cb); simpl; [discriminate|].
    intros Hl. now rewrite IH.
Qed.

Section SubscriptionFacts.

Variable U : Type.
Variable call : Callback -> list string -> Z -> Z -> M U unit.

Lemma subscribe_bc (cb : Callback) (s : Sys U) :
  bc (step U call (CallSubscribe cb) s)
  = with_subscribers (fun l => l ++ [cb]) (bc s).
Proof. reflexivity. Qed.

Lemma unsubscribe_bc (cb : Callback) (s : Sys U) :
  bc (step U call (CallUnsubscribe cb) s)
  = with_subscribers (remove_first cb) (bc s).
Proof.
  unfold step, unsubscribe, with_lock, on_bc, emit.
  unfold bind, gets, modify, ret. simpl.
  destruct (existsb (Nat.eqb cb) (_subscribers (bc s))) eqn:Hin; simpl.
  - reflexivity.
  - unfold with_subscribers. rewrite (remove_first_absent _ _ Hin).
    now destruct (bc s).
Qed.

End SubscriptionFacts.

(** X13.  Subscribing a callback that is not subscribed and then
    unsubscribing it leaves the broadcaster as it was: same subscribers in
    the same order, same running flag, thread and remembered content. *)
Theorem X13_subscribe_unsubscribe_round_trip :
  forall (U : Type) (call : Callback -> list string -> Z -> Z -> M U unit)
         (s : Sys U) (cb : Callback),
    existsb (Nat.eqb cb) (_subscribers (bc s)) = false ->
    bc (step U call (CallUnsubscribe cb) (step U call (CallSubscribe cb) s))
    = bc s.
Proof.
  intros U call s cb Habsent.
  rewrite unsubscribe_bc, subscribe_bc.
  unfold with_subscribers. simpl.
  rewrite (remove_first_snoc_absent _ _ Habsent). now destruct (bc s).
Qed.

Lemma X13_witness :
  existsb (Nat.eqb 7%nat) (_subscribers (bc two_subscribers)) = false /\
  bc (step _ bad_then_good (CallUnsubscribe 7%nat)
        (step _ bad_then_good (CallSubscribe 7%nat) two_subscribers))
  = bc two_subscribers.
Proof.
  split; [reflexivity|].
  apply (X13_subscribe_unsubscribe_round_trip _ bad_then_good two_subscribers
           7%nat).
  reflexivity.
Defined.

(** X14.  [unsubscribe(cb)] takes away one subscription of [cb], the first
    in the list, and no other: a callback that is not subscribed leaves the
    broadcaster as it is, one subscribed [n] times stays subscribed [n - 1]
    times, and every other callback keeps its subscriptions.  [subscribe(cb)]
    adds one subscription of [cb], even when it is subscribed already. *)
Theorem X14_unsubscribe_removes_one_subscription :
  forall (U : Type) (call : Callback -> list string -> Z -> Z -> M U unit)
         (s : Sys U) (cb c : Callback),
    let after_unsubscribe :=
      _subscribers (bc (step U call (CallUnsubscribe cb) s)) in
    let after_subscribe :=
      _subscribers (bc (step U call (CallSubscribe cb) s)) in
    subscriptions c after_unsubscribe
    = (if Nat.eqb cb c then Nat.pred (subscriptions c (_subscribers (bc s)))
       else subscriptions c (_subscribers (bc s))) /\
    subscriptions c after_subscribe
    = (if Nat.eqb cb c then S (subscriptions c (_subscribers (bc s)))
       else subscriptions c (_subscribers (bc s))) /\
    (if existsb (Nat.eqb cb) (_subscribers (bc s))
     then length after_unsubscribe = Nat.pred (length (_subscribers (bc s)))
     else bc (step U call (CallUnsubscribe cb) s) = bc s).
Proof.
  intros U call s cb c. cbv zeta.
  rewrite unsubscribe_bc, subscribe_bc. simpl.
  split; [apply subscriptions_remove_first|].
  split; [apply subscriptions_snoc|].
  destruct (existsb (Nat.eqb cb) (_subscribers (bc s))) eqn:Hin.
  - clear c. induction (_subscribers (bc s)) as [|x l IH]; [discriminate|].
    simpl in *. rewrite (Nat.eqb_sym cb x) in Hin.
    destruct (Nat.eqb x cb); simpl in *; [reflexivity|].
    rewrite (IH Hin). destruct l; [discriminate|reflexivity].
  - unfold with_subscribers. rewrite (remove_first_absent _ _ Hin).
    now destruct (bc s).
Qed.

(** ** The events of calls and turns *)

Section StepEvents.

Variable U : Type.
Variable call : Callback -> list string -> Z -> Z -> M U unit.

Lemma invoked_app (cb : Callback) (a b : list Event) :
  invoked cb (a ++ b) = invoked cb a || invoked cb b.
Proof. unfold invoked. now rewrite calls_in_app, existsb_app. Qed.

Lemma calls_in_iteration_events (scr : Screen) (s : Sys U) :
  calls_in (iteration_events U call scr s)
  = if bool_decide (display scr <> _last_content (bc s))
    then map (fun cb => (cb, (display scr, cursor_x scr, cursor_y scr)))
             (_subscribers (bc s))
    else [].
Proof.
  unfold iteration_events.
  destruct (sleep_events_quiet (bc s)) as (Hcalls & _ & _).
  destruct (bool_decide _); simpl.
  - rewrite !calls_in_app, Hcalls, notify_events_calls. simpl.
    now rewrite !app_nil_r.
  - exact Hcalls.
Qed.

Lemma invoked_map (cb : Callback) (snap : list string * Z * Z)
  (l : list Callback) :
  existsb (fun c : Callback * (list string * Z * Z) => Nat.eqb (fst c) cb)
    (map (fun c => (c, snap)) l)
  = existsb (Nat.eqb cb) l.
Proof.
  induction l as [|x l IH]; simpl; [reflexivity|].
  now rewrite IH, (Nat.eqb_sym x cb).
Qed.

Lemma invoked_iteration_events (cb : Callback) (scr : Screen) (s : Sys U) :
  invoked cb (iteration_events U call scr s) = true ->
  existsb (Nat.eqb cb) (_subscribers (bc s)) = true.
Proof.
  unfold invoked. rewrite calls_in_iteration_events.
  destruct (bool_decide _); [|discriminate].
  now rewrite invoked_map.
Qed.

Lemma replay_notify_events (lines : list string) (x y : Z)
  (sh ch : bool) (tail : list Event) :
  forall (cbs : list Callback) (u : U),
    replay_locks sh ch (fst (notify_events U call cbs lines x y u) ++ tail)
    = replay_locks sh ch tail.
Proof.
  induction cbs as [|cb rest IH]; intros u; simpl; [reflexivity|].
  destruct (call cb lines x y u) as [r u1].
  specialize (IH u1).
  destruct (notify_events U call rest lines x y u1) as [evs u2].
  exact IH.
Qed.

Lemma replay_iteration_events (scr : Screen) (s : Sys U) (tail : list Event) :
  replay_locks false false (iteration_events U call scr s ++ tail)
  = replay_locks false false tail.
Proof.
  unfold iteration_events, sleep_events. simpl.
  destruct (bool_decide _); simpl.
  - rewrite <- !app_assoc. rewrite replay_notify_events. simpl.
    destruct (update_interval (bc s) <? 0); reflexivity.
  - destruct (update_interval (bc s) <? 0); reflexivity.
Qed.

(** A turn of the loop by a thread that is in it, case by case. *)
Lemma tick_alive (tid : nat) (view : result Screen) (s : Sys U) :
  threads s !! tid = Some true ->
  let leave s0 :=
    mkSys (bc s0) (<[tid := false]> (threads s0)) (user s0)
          (trace s0 ++ [ThreadExited tid]) in
  tick U call tid view s
  = if _running (bc s)
    then match view with
         | Raise _ =>
           leave (mkSys (bc s) (threads s) (user s)
                    (trace s ++ [Acquire ScreenLock; Release ScreenLock]))
         | Ok scr =>
           let s1 := snd (loop_iteration U call (Ok scr) s) in
           if update_interval (bc s) <? 0 then leave s1 else s1
         end
    else leave s.
Proof.
  intros Halive leave. unfold tick. rewrite Halive.
  destruct (_running (bc s)) eqn:Hrun.
  - destruct view as [scr|e].
    + rewrite (loop_iteration_ok U call scr s Hrun).
      destruct (update_interval (bc s) <? 0); reflexivity.
    + unfold loop_iteration. rewrite Hrun. subst leave. simpl.
      rewrite <- !app_assoc. reflexivity.
  - unfold loop_iteration. rewrite Hrun. reflexivity.
Qed.

Lemma loop_iteration_subscribers (view : result Screen) (s : Sys U) :
  _subscribers (bc (snd (loop_iteration U call view s)))
  = _subscribers (bc s) /\
  update_interval (bc (snd (loop_iteration U call view s)))
  = update_interval (bc s).
Proof.
  destruct (_running (bc s)) eqn:Hrun.
  - destruct view as [scr|e].
    + rewrite (loop_iteration_ok U call scr s Hrun). simpl.
      destruct (bool_decide _); simpl; auto.
    + unfold loop_iteration. rewrite Hrun. simpl. auto.
  - unfold loop_iteration. rewrite Hrun. simpl. auto.
Qed.

(** What a call or a turn adds to the events: subscribers only are invoked,
    and the locks are taken and given back in order. *)
Lemma step_events (a : Action) (s : Sys U) :
  exists E,
    trace (step U call a s) = trace s ++ E /\
    (forall cb, invoked cb E = true ->
                existsb (Nat.eqb cb) (_subscribers (bc s)) = true) /\
    replay_locks false false E = Some (false, false).
Proof.
  destruct a as [| |cb|cb|tid view].
  - destruct (_running (bc s)) eqn:Hrun.
    + exists []. simpl. unfold start, bind, gets. rewrite Hrun. simpl.
      rewrite app_nil_r. repeat split. discriminate.
    + exists [ThreadStarted (length (threads s))]. simpl.
      unfold start, bind, gets. rewrite Hrun. simpl.
      repeat split. discriminate.
  - exists [Acquire SubscribersLock; Release SubscribersLock]. simpl.
    rewrite <- app_assoc. repeat split. discriminate.
  - exists [Acquire SubscribersLock; Release SubscribersLock]. simpl.
    rewrite <- app_assoc. repeat split. discriminate.
  - exists [Acquire SubscribersLock; Release SubscribersLock]. simpl.
    unfold unsubscribe, with_lock, on_bc, emit. unfold bind, gets, modify, ret.
    simpl. destruct (existsb _ _); simpl; rewrite <- app_assoc;
      repeat split; discriminate.
  - change (step U call (Tick tid view) s) with (tick U call tid view s).
    destruct (threads s !! tid) as [[|]|] eqn:Halive.
    + rewrite (tick_alive tid view s Halive). cbv zeta.
      destruct (_running (bc s)) eqn:Hrun.
      * destruct view as [scr|e].
        -- rewrite (loop_iteration_ok U call scr s Hrun). simpl.
           destruct (update_interval (bc s) <? 0); simpl.
           ++ exists (iteration_events U call scr s ++ [ThreadExited tid]).
              rewrite <- app_assoc. split; [reflexivity|]. split.
              ** intros cb. rewrite invoked_app, orb_false_r.
                 apply invoked_iteration_events.
              ** now rewrite replay_iteration_events.
           ++ exists (iteration_events U call scr s).
              split; [reflexivity|]. split.
              ** intros cb. apply invoked_iteration_events.
              ** rewrite <- (app_nil_r (iteration_events U call scr s)).
                 now rewrite replay_iteration_events.
        -- exists [Acquire ScreenLock; Release ScreenLock; ThreadExited tid].
           simpl. rewrite <- app_assoc. repeat split. discriminate.
      * exists [ThreadExited tid]. repeat split. discriminate.
    + exists []. simpl. unfold tick. rewrite Halive. rewrite app_nil_r.
      repeat split. discriminate.
    + exists []. simpl. unfold tick. rewrite Halive. rewrite app_nil_r.
      repeat split. discriminate.
Qed.

Lemma remove_first_subscribed (cb c : Callback) (l : list Callback) :
  existsb (Nat.eqb cb) (remove_first c l) = true ->
  existsb (Nat.eqb cb) l = true.
Proof.
  induction l as [|x l IH]; simpl; [auto|].
  destruct (Nat.eqb x c); simpl.
  - intros ->. apply orb_true_r.
  - destruct (Nat.eqb cb x); simpl; auto.
Qed.

(** Only [subscribe(cb)] makes [cb] a subscriber. *)
Lemma step_subscribed (cb : Callback) (a : Action) (s : Sys U) :
  existsb (Nat.eqb cb) (_subscribers (bc (step U call a s))) = true ->
  existsb (Nat.eqb cb) (_subscribers (bc s)) = true \/
  is_subscribe_of cb a = true.
Proof.
  destruct a as [| |c|c|tid view].
  - simpl. unfold start, bind, gets.
    destruct (_running (bc s)); simpl; auto.
  - simpl. discriminate.
  - rewrite subscribe_bc. simpl. rewrite existsb_app. simpl.
    rewrite orb_false_r, (Nat.eqb_sym cb c).
    intros [Hin|Hc]%orb_true_iff; auto.
  - rewrite unsubscribe_bc. simpl. intros Hin. left.
    eapply remove_first_subscribed, Hin.
  - simpl. unfold tick.
    destruct (threads s !! tid) as [[|]|]; auto.
    pose proof (loop_iteration_subscribers view s) as [Hsubs _].
    destruct (loop_iteration U call view s) as [[|] s']; simpl in *;
      rewrite Hsubs; auto.
Qed.

Lemma run_not_invoked (cb : Callback) (acts : list Action) :
  forall s : Sys U,
    existsb (Nat.eqb cb) (_subscribers (bc s)) = false ->
    existsb (is_subscribe_of cb) acts = false ->
    exists E,
      trace (run U call acts s) = trace s ++ E /\ invoked cb E = false.
Proof.
  induction acts as [|a acts IH]; intros s Hout Hno.
  - exists []. simpl. now rewrite app_nil_r.
  - simpl in Hno. apply orb_false_iff in Hno as [Ha Hacts].
    destruct (step_events a s) as (E1 & Htrace & Hinv & _).
    destruct (IH (step U call a s)) as (E2 & Htrace2 & Hinv2).
    + destruct (existsb (Nat.eqb cb) (_subscribers (bc (step U call a s))))
        eqn:Hin; [|reflexivity].
      destruct (step_subscribed cb a s Hin); congruence.
    + exact Hacts.
    + exists (E1 ++ E2).
      change (run U call (a :: acts) s)
        with (run U call acts (step U call a s)).
      rewrite Htrace2, Htrace, <- app_assoc. split; [reflexivity|].
      rewrite invoked_app, Hinv2, orb_false_r.
      destruct (invoked cb E1) eqn:H1; [|reflexivity].
      specialize (Hinv cb H1). congruence.
Qed.

Lemma replay_locks_app (E1 E2 : list Event) :
  forall sh ch sh' ch',
    replay_locks sh ch E1 = Some (sh', ch') ->
    replay_locks sh ch (E1 ++ E2) = replay_locks sh' ch' E2.
Proof.
  induction E1 as [|ev E1 IH]; intros sh ch sh' ch' Hrep.
  - simpl in *. now inversion Hrep.
  - destruct ev as [[|]|[|]| | | |]; simpl in *;
      try (destruct sh; try discriminate);
      try (destruct ch; try discriminate);
      eapply IH; eassumption.
Qed.

(** Calls and turns made one after the other: the locks are free between
    them, so each acquire finds its lock free. *)
Lemma run_locks (acts : list Action) :
  forall s : Sys U,
    exists E,
      trace (run U call acts s) = trace s ++ E /\
      replay_locks false false E = Some (false, false).
Proof.
  induction acts as [|a acts IH]; intros s.
  - exists []. simpl. now rewrite app_nil_r.
  - destruct (step_events a s) as (E1 & Htrace & _ & Hlocks).
    destruct (IH (step U call a s)) as (E2 & Htrace2 & Hlocks2).
    exists (E1 ++ E2).
    change (run U call (a :: acts) s)
      with (run U call acts (step U call a s)).
    rewrite Htrace2, Htrace, <- app_assoc. split; [reflexivity|].
    now rewrite (replay_locks_app E1 E2 _ _ _ _ Hlocks).
Qed.

End StepEvents.

Section LoopRuns.

Variable U : Type.
Variable call : Callback -> list string -> Z -> Z -> M U unit.

Lemma last_cons {A} (x d : A) (l : list A) :
  List.last (x :: l) d = List.last l x.
Proof.
  revert x d. induction l as [|y l IH]; intros x d; [reflexivity|].
  change (List.last (x :: y :: l) d) with (List.last (y :: l) d).
  now rewrite !IH.
Qed.

(** The loop on its own, reading one screen after the other. *)
Lemma broadcast_loop_run :
  forall (screens : list Screen) (s : Sys U),
    _running (bc s) = true ->
    0 <= update_interval (bc s) ->
    exists (s' : Sys U) (E : list Event),
      _broadcast_loop U call (map Ok screens) s = (Continue, s') /\
      trace s' = trace s ++ E /\
      calls_in E
      = concat
          (map (fun scr =>
                  map (fun cb => (cb, (display scr, cursor_x scr, cursor_y scr)))
                      (_subscribers (bc s)))
               (broadcasts (_last_content (bc s)) screens)) /\
      _last_content (bc s')
      = List.last (map display screens) (_last_content (bc s)).
Proof.
  induction screens as [|scr rest IH]; intros s Hrun Hint.
  - exists s, []. simpl. now rewrite app_nil_r.
  - assert (Hsleep : (update_interval (bc s) <? 0) = false)
      by (apply Z.ltb_ge; lia).
    pose proof (loop_iteration_ok U call scr s Hrun) as Hit.
    rewrite Hsleep in Hit.
    pose proof (loop_iteration_frame U call (Ok scr) s) as [_ Hrun1].
    pose proof (loop_iteration_subscribers U call (Ok scr) s) as [Hsubs Hint1].
    assert (Hlast : _last_content (bc (snd (loop_iteration U call (Ok scr) s)))
                    = display scr).
    { rewrite Hit. simpl.
      destruct (bool_decide (display scr <> _last_content (bc s))) eqn:Hd;
        [reflexivity|].
      apply bool_decide_eq_false in Hd.
      destruct (decide (display scr = _last_content (bc s))) as [He|Hne];
        [now symmetry|now destruct Hd]. }
    destruct (IH (snd (loop_iteration U call (Ok scr) s)))
      as (s' & E & Hloop & Htrace & Hcalls & Hfinal).
    { now rewrite Hrun1. }
    { now rewrite Hint1. }
    exists s', (iteration_events U call scr s ++ E).
    split; [|split; [|split]].
    + simpl. rewrite Hit in *. simpl in *. exact Hloop.
    + rewrite Htrace, Hit. simpl. now rewrite <- app_assoc.
    + rewrite calls_in_app, calls_in_iteration_events, Hcalls, Hsubs, Hlast.
      simpl. destruct (bool_decide (display scr <> _last_content (bc s)));
        reflexivity.
    + rewrite Hfinal, Hlast. simpl map. now rewrite last_cons.
Qed.

Lemma broadcasts_length (screens : list Screen) :
  forall last, (length (broadcasts last screens) <= length screens)%nat.
Proof.
  induction screens as [|scr rest IH]; intros last; simpl; [lia|].
  destruct (bool_decide _); simpl; specialize (IH (display scr)); lia.
Qed.

End LoopRuns.

(** X15.  After one [unsubscribe(cb)], the next turn that notifies calls
    [cb] once less than it was subscribed, and every other callback as
    often as it is subscribed: a callback subscribed twice is still called
    after it was unsubscribed once. *)
Theorem X15_calls_follow_subscriptions :
  forall (U : Type) (call : Callback -> list string -> Z -> Z -> M U unit)
         (s : Sys U) (cb c : Callback) (scr : Screen),
    _running (bc s) = true ->
    display scr <> _last_content (bc s) ->
    let s1 := step U call (CallUnsubscribe cb) s in
    let evs := events_of s1 (snd (loop_iteration U call (Ok scr) s1)) in
    subscriptions c (map fst (calls_in evs))
    = if Nat.eqb cb c then Nat.pred (subscriptions c (_subscribers (bc s)))
      else subscriptions c (_subscribers (bc s)).
Proof.
  intros U call s cb c scr Hrun Hne s1 evs. subst evs.
  assert (Hbc : bc s1 = with_subscribers (remove_first cb) (bc s))
    by apply unsubscribe_bc.
  assert (Hrun1 : _running (bc s1) = true) by (rewrite Hbc; exact Hrun).
  rewrite (events_of_iteration U call scr s1 Hrun1).
  rewrite calls_in_iteration_events, Hbc. simpl.
  rewrite (bool_decide_eq_true_2 _ Hne).
  rewrite map_map. simpl. rewrite map_id.
  apply subscriptions_remove_first.
Qed.

Lemma X15_witness :
  let s := mkSys (mk 100 [1%nat; 0%nat; 1%nat] true (Some 0%nat) []) [true]
             ([] : list (list string)) [] in
  let scr := mkScreen ["$ "%string] 2 0 in
  _running (bc s) = true /\
  display scr <> _last_content (bc s) /\
  let s1 := step _ bad_then_good (CallUnsubscribe 1%nat) s in
  let evs := events_of s1 (snd (loop_iteration _ bad_then_good (Ok scr) s1)) in
  subscriptions 1%nat (map fst (calls_in evs))
  = if Nat.eqb 1 1 then Nat.pred (subscriptions 1%nat (_subscribers (bc s)))
    else subscriptions 1%nat (_subscribers (bc s)).
Proof.
  cbv zeta. split; [reflexivity|].
  split; [apply (bool_decide_unpack _); vm_compute; exact I|].
  apply (X15_calls_follow_subscriptions _ bad_then_good
           (mkSys (mk 100 [1%nat; 0%nat; 1%nat] true (Some 0%nat) []) [true]
              ([] : list (list string)) [])
           1%nat 1%nat (mkScreen ["$ "%string] 2 0)).
  - reflexivity.
  - apply (bool_decide_unpack _). vm_compute. exact I.
Defined.

(** X16.  A callback subscribed at most once is never called again after
    [unsubscribe]: whatever calls and loop turns follow, as long as none of
    them subscribes it anew, no notification pass invokes it. *)
Theorem X16_unsubscribed_is_never_called :
  forall (U : Type) (call : Callback -> list string -> Z -> Z -> M U unit)
         (s : Sys U) (cb : Callback) (acts : list Action),
    (subscriptions cb (_subscribers (bc s)) <= 1)%nat ->
    existsb (is_subscribe_of cb) acts = false ->
    let s1 := step U call (CallUnsubscribe cb) s in
    invoked cb (events_of s1 (run U call acts s1)) = false.
Proof.
  intros U call s cb acts Hone Hno s1.
  assert (Hout : existsb (Nat.eqb cb) (_subscribers (bc s1)) = false).
  { subst s1. rewrite unsubscribe_bc. simpl.
    rewrite subscribed_iff_subscriptions, subscriptions_remove_first,
      Nat.eqb_refl.
    destruct (subscriptions cb (_subscribers (bc s))) as [|[|n]];
      [reflexivity|reflexivity|lia]. }
  destruct (run_not_invoked U call cb acts s1 Hout Hno) as (E & Htrace & Hinv).
  unfold events_of. rewrite Htrace, drop_app_length. exact Hinv.
Qed.

Lemma X16_witness :
  let acts := [Tick 0%nat (Ok (mkScreen ["$ "%string] 2 0));
               CallSubscribe 3%nat;
               Tick 0%nat (Ok (mkScreen ["$ ls"%string] 4 0))] in
  (subscriptions 1%nat (_subscribers (bc two_subscribers)) <= 1)%nat /\
  existsb (is_subscribe_of 1%nat) acts = false /\
  let s1 := step _ bad_then_good (CallUnsubscribe 1%nat) two_subscribers in
  invoked 1%nat (events_of s1 (run _ bad_then_good acts s1)) = false.
Proof.
  cbv zeta. split; [simpl; lia|]. split; [reflexivity|].
  apply (X16_unsubscribed_is_never_called _ bad_then_good two_subscribers 1%nat
           [Tick 0%nat (Ok (mkScreen ["$ "%string] 2 0));
            CallSubscribe 3%nat;
            Tick 0%nat (Ok (mkScreen ["$ ls"%string] 4 0))]).
  - simpl. lia.
  - reflexivity.
Defined.

(** X17.  [shutdown()] leaves the broadcaster not running and without
    subscribers, and the next turn of a polling thread that is still in the
    loop ends that thread: it reads no screen, calls nobody and changes
    nothing in the broadcaster.  A second [shutdown()] changes nothing in the
    broadcaster either. *)
Theorem X17_shutdown_stops_the_loop :
  forall (U : Type) (call : Callback -> list string -> Z -> Z -> M U unit)
         (s : Sys U) (tid : nat) (view : result Screen),
    threads s !! tid = Some true ->
    let s1 := step U call CallShutdown s in
    let s2 := tick U call tid view s1 in
    is_running s1 = false /\
    _subscribers (bc s1) = [] /\
    threads s2 !! tid = Some false /\
    events_of s1 s2 = [ThreadExited tid] /\
    bc s2 = bc s1 /\
    user s2 = user s /\
    bc (step U call CallShutdown s1) = bc s1.
Proof.
  intros U call s tid view Halive s1 s2.
  assert (Halive1 : threads s1 !! tid = Some true) by exact Halive.
  assert (Hs2 : s2 = mkSys (bc s1) (<[tid := false]> (threads s1)) (user s1)
                       (trace s1 ++ [ThreadExited tid])).
  { subst s2. rewrite (tick_alive U call tid view s1 Halive1). cbv zeta.
    now destruct view. }
  split; [reflexivity|]. split; [reflexivity|].
  split.
  { rewrite Hs2. cbn [threads]. apply list_lookup_insert_eq.
    apply lookup_lt_Some in Halive1. exact Halive1. }
  split.
  { unfold events_of. rewrite Hs2. cbn [trace]. apply drop_app_length. }
  split; [now rewrite Hs2|]. split; [now rewrite Hs2|]. reflexivity.
Qed.

Lemma X17_witness :
  threads two_subscribers !! 0%nat = Some true /\
  let s1 := step _ bad_then_good CallShutdown two_subscribers in
  let s2 := tick _ bad_then_good 0%nat (Ok (mkScreen ["$ "%string] 2 0)) s1 in
  is_running s1 = false /\
  _subscribers (bc s1) = [] /\
  threads s2 !! 0%nat = Some false /\
  events_of s1 s2 = [ThreadExited 0] /\
  bc s2 = bc s1 /\
  user s2 = user two_subscribers /\
  bc (step _ bad_then_good CallShutdown s1) = bc s1.
Proof.
  split; [reflexivity|].
  apply (X17_shutdown_stops_the_loop _ bad_then_good two_subscribers 0%nat
           (Ok (mkScreen ["$ "%string] 2 0))).
  reflexivity.
Defined.

(** X18.  Left to itself with a poll interval that is not negative, the
    loop of a running broadcaster goes through all the screens it reads and
    broadcasts exactly those whose lines differ from the lines read just
    before (the remembered content at first), each to every subscriber in
    order: a screen read again unchanged is not announced twice, there are
    never more broadcasts than reads, and the remembered content ends as the
    lines read last. *)
Theorem X18_loop_broadcasts_changes_once :
  forall (U : Type) (call : Callback -> list string -> Z -> Z -> M U unit)
         (s : Sys U) (screens : list Screen),
    _running (bc s) = true ->
    0 <= update_interval (bc s) ->
    let r := _broadcast_loop U call (map Ok screens) s in
    let announced := broadcasts (_last_content (bc s)) screens in
    fst r = Continue /\
    calls_in (events_of s (snd r))
    = concat
        (map (fun scr =>
                map (fun cb => (cb, (display scr, cursor_x scr, cursor_y scr)))
                    (_subscribers (bc s)))
             announced) /\
    (length announced <= length screens)%nat /\
    _last_content (bc (snd r))
    = List.last (map display screens) (_last_content (bc s)).
Proof.
  intros U call s screens Hrun Hint r announced. subst r announced.
  destruct (broadcast_loop_run U call screens s Hrun Hint)
    as (s' & E & Hloop & Htrace & Hcalls & Hfinal).
  rewrite Hloop. simpl. split; [reflexivity|].
  split; [|split; [apply broadcasts_length|exact Hfinal]].
  unfold events_of. rewrite Htrace, drop_app_length. exact Hcalls.
Qed.

Lemma X18_witness :
  let screens := [mkScreen ["$ "%string] 2 0; mkScreen ["$ "%string] 5 0;
                  mkScreen ["$ ls"%string] 4 0; mkScreen ["$ "%string] 2 0] in
  _running (bc two_subscribers) = true /\
  0 <= update_interval (bc two_subscribers) /\
  broadcasts (_last_content (bc two_subscribers)) screens
  = [mkScreen ["$ "%string] 2 0; mkScreen ["$ ls"%string] 4 0;
     mkScreen ["$ "%string] 2 0] /\
  let r := _broadcast_loop _ bad_then_good (map Ok screens) two_subscribers in
  let announced := broadcasts (_last_content (bc two_subscribers)) screens in
  fst r = Continue /\
  calls_in (events_of two_subscribers (snd r))
  = concat
      (map (fun scr =>
              map (fun cb => (cb, (display scr, cursor_x scr, cursor_y scr)))
                  (_subscribers (bc two_subscribers)))
           announced) /\
  (length announced <= length screens)%nat /\
  _last_content (bc (snd r))
  = List.last (map display screens) (_last_content (bc two_subscribers)).
Proof.
  cbv zeta. split; [reflexivity|]. split; [simpl; lia|].
  split; [vm_compute; reflexivity|].
  apply (X18_loop_broadcasts_changes_once _ bad_then_good two_subscribers
           [mkScreen ["$ "%string] 2 0; mkScreen ["$ "%string] 5 0;
            mkScreen ["$ ls"%string] 4 0; mkScreen ["$ "%string] 2 0]).
  - reflexivity.
  - simpl. lia.
Defined.

(** X19.  No call of the interface and no turn of the loop acquires a lock
    that it holds already, and each has given back every lock it took by the
    time it ends; so have any calls and turns made one after the other, in
    which every acquire therefore finds its lock free.  This holds also when
    a subscriber or the sleep raises, and when the screen read raises inside
    the [with] block: that turn takes the screen lock, gives it back, and
    only then leaves the loop. *)
Theorem X19_locks_are_given_back :
  forall (U : Type) (call : Callback -> list string -> Z -> Z -> M U unit)
         (s : Sys U),
    (forall a,
        replay_locks false false (events_of s (step U call a s))
        = Some (false, false)) /\
    (forall acts,
        replay_locks false false (events_of s (run U call acts s))
        = Some (false, false)) /\
    (forall tid e,
        threads s !! tid = Some true ->
        is_running s = true ->
        events_of s (step U call (Tick tid (Raise e)) s)
        = [Acquire ScreenLock; Release ScreenLock; ThreadExited tid]).
Proof.
  intros U call s. split; [|split].
  - intros a.
    destruct (step_events U call a s) as (E & Htrace & _ & Hlocks).
    unfold events_of. rewrite Htrace, drop_app_length. exact Hlocks.
  - intros acts.
    destruct (run_locks U call acts s) as (E & Htrace & Hlocks).
    unfold events_of. rewrite Htrace, drop_app_length. exact Hlocks.
  - intros tid e Halive Hrun. unfold is_running in Hrun.
    change (step U call (Tick tid (Raise e)) s)
      with (tick U call tid (Raise e) s).
    rewrite (tick_alive U call tid (Raise e) s Halive). cbv zeta.
    rewrite Hrun. unfold events_of. simpl.
    rewrite <- app_assoc. apply drop_app_length.
Qed.

Lemma X19_witness :
  threads two_subscribers !! 0%nat = Some true /\
  is_running two_subscribers = true /\
  events_of two_subscribers
    (step _ bad_then_good (Tick 0 (Raise (Exception "session closed")))
       two_subscribers)
  = [Acquire ScreenLock; Release ScreenLock; ThreadExited 0].
Proof.
  split; [reflexivity|]. split; [reflexivity|].
  apply (proj2 (proj2 (X19_locks_are_given_back _ bad_then_good
                         two_subscribers)));
    reflexivity.
Defined.

(** X20.  When a polling thread is still in the loop as [shutdown()]
    returns (its [join] waits one second at most) and [start()] is called
    before that thread tests the flag again, the thread does not stop: the
    broadcaster is running with a new thread, and the old one goes on
    polling beside it. *)
Theorem X20_restart_keeps_the_old_thread_polling :
  forall (U : Type) (call : Callback -> list string -> Z -> Z -> M U unit)
         (s : Sys U) (tid : nat) (scr : Screen),
    threads s !! tid = Some true ->
    0 <= update_interval (bc s) ->
    let s1 := run U call [CallShutdown; CallStart] s in
    is_running s1 = true /\
    threads s1 = threads s ++ [true] /\
    _thread (bc s1) = Some (length (threads s)) /\
    threads s1 !! tid = Some true /\
    threads (tick U call tid (Ok scr) s1) !! tid = Some true /\
    threads (tick U call (length (threads s)) (Ok scr) s1)
      !! length (threads s) = Some true.
Proof.
  intros U call s tid scr Halive Hint s1.
  assert (Hth : threads s1 = threads s ++ [true]) by reflexivity.
  assert (Hrun : _running (bc s1) = true) by reflexivity.
  assert (Hint1 : (update_interval (bc s1) <? 0) = false)
    by (apply Z.ltb_ge; exact Hint).
  assert (Hold : threads s1 !! tid = Some true)
    by (rewrite Hth; apply lookup_app_l_Some; exact Halive).
  assert (Hnew : threads s1 !! length (threads s) = Some true).
  { rewrite Hth. rewrite lookup_app_r by lia.
    now rewrite Nat.sub_diag. }
  split; [reflexivity|]. split; [exact Hth|]. split; [reflexivity|].
  split; [exact Hold|].
  pose proof (loop_iteration_frame U call (Ok scr) s1) as [Hframe _].
  split.
  - rewrite (tick_alive U call tid (Ok scr) s1 Hold). cbv zeta.
    rewrite Hrun, Hint1, Hframe. exact Hold.
  - rewrite (tick_alive U call _ (Ok scr) s1 Hnew). cbv zeta.
    rewrite Hrun, Hint1, Hframe. exact Hnew.
Qed.

Lemma X20_witness :
  threads two_subscribers !! 0%nat = Some true /\
  0 <= update_interval (bc two_subscribers) /\
  let s1 := run _ bad_then_good [CallShutdown; CallStart] two_subscribers in
  is_running s1 = true /\
  threads s1 = threads two_subscribers ++ [true] /\
  _thread (bc s1) = Some (length (threads two_subscribers)) /\
  threads s1 !! 0%nat = Some true /\
  threads (tick _ bad_then_good 0%nat (Ok (mkScreen ["$ "%string] 2 0)) s1)
    !! 0%nat = Some true /\
  threads (tick _ bad_then_good (length (threads two_subscribers))
             (Ok (mkScreen ["$ "%string] 2 0)) s1)
    !! length (threads two_subscribers) = Some true.
Proof.
  split; [reflexivity|]. split; [simpl; lia|].
  apply (X20_restart_keeps_the_old_thread_polling _ bad_then_good
           two_subscribers 0%nat (mkScreen ["$ "%string] 2 0)).
  - reflexivity.
  - simpl. lia.
Defined.
